(** * dog-cat-class: the Flask front-end of [app.py]

    A shallow embedding of [src/app.py].  The module loads a Keras model at
    import time, registers two view functions on a Flask application and
    answers [POST /predict] by running the model on the uploaded image.

    Python floats are IEEE 754 binary64 numbers: they are modelled by Rocq's
    primitive floats ([PrimFloat.float]), whose operations are specified by
    [SpecFloat].  The libraries the module calls (os, Keras, PIL, NumPy,
    Flask's template renderer) are not part of the repository: their
    behaviour is a parameter, the record [Env]; every call to one of them is
    written to a call log, so that the order and the number of calls can be
    stated. *)

From Stdlib Require Import String Ascii List ZArith Bool Lia Floats.
Import ListNotations.
Local Open Scope string_scope.

(** ** Python values *)

(** An exception object: whether it is an instance of [Exception] (what the
    clause [except Exception] tests; [KeyboardInterrupt], [SystemExit] and
    [GeneratorExit] derive from [BaseException] only) and its [str(e)]. *)
Record py_exception : Type := mk_exception {
  is_Exception : bool;
  str : string
}.

Definition IndexError (msg : string) : py_exception := mk_exception true msg.
Definition KeyboardInterrupt : py_exception :=
  mk_exception false EmptyString.

(** The outcome of evaluating a Python expression. *)
Inductive result (A : Type) : Type :=
| Ok (a : A)
| Raise (e : py_exception).
Arguments Ok {A} a.
Arguments Raise {A} e.

Definition bytes := list Byte.byte.

(** A shape tuple such as [(None, 299, 299, 3)] or [(299, 299)]. *)
Definition shape := list (option Z).

(** [t[i]] on a tuple, for [0 <= i]. *)
Definition tuple_item {A : Type} (t : list A) (i : nat) : result A :=
  match nth_error t i with
  | Some x => Ok x
  | None => Raise (IndexError "tuple index out of range")
  end.

(** [t[i:j]], for [0 <= i <= j]. *)
Definition tuple_slice {A : Type} (t : list A) (i j : nat) : list A :=
  firstn (j - i) (skipn i t).

(** ** JSON bodies and responses *)

Inductive json : Type :=
| JString (s : string)
| JNumber (x : float).

(** A Python dict with string keys, in insertion order. *)
Definition dict := list (string * json).

Fixpoint dict_get (k : string) (d : dict) : option json :=
  match d with
  | [] => None
  | (k', v) :: d' => if String.eqb k k' then Some v else dict_get k d'
  end.

Definition has_key (k : string) (d : dict) : bool :=
  match dict_get k d with Some _ => true | None => false end.

Inductive body : Type :=
| Html (s : string)
| Json (d : dict).

Record response : Type := mk_response {
  resp_body : body;
  status : Z
}.

(** [jsonify(d)]: a JSON response, status 200. *)
Definition jsonify (d : dict) : response := mk_response (Json d) 200.

(** [return resp, code] in a view function. *)
Definition with_status (r : response) (code : Z) : response :=
  mk_response (resp_body r) code.

(** [return s] in a view function, for a string [s]. *)
Definition html_response (s : string) : response := mk_response (Html s) 200.

(** ** Requests *)

(** An uploaded file (werkzeug's [FileStorage]): its name and what
    [file.read()] evaluates to. *)
Record file_storage : Type := mk_file {
  filename : string;
  read : result bytes
}.

Record request : Type := mk_request {
  method : string;
  path : string;
  files : list (string * file_storage)
}.

(** [request.files[k]], [None] when [k not in request.files]. *)
Fixpoint files_get (k : string) (fs : list (string * file_storage))
  : option file_storage :=
  match fs with
  | [] => None
  | (k', f) :: fs' => if String.eqb k k' then Some f else files_get k fs'
  end.

(** ** The call log *)

(** One constructor per library function the module calls; [float_call]
    stands for the whole of [float(preds[0][0])], and
    [send_static_file_call] for the view Flask's constructor installs. *)
Inductive call : Type :=
| os_path_exists_call (p : string)
| load_model_call (p : string)
| render_template_string_call
| file_read_call
| Image_open_call
| convert_call (mode : string)
| resize_call (size : shape)
| img_to_array_call
| expand_dims_call (axis : Z)
| preprocess_input_call
| model_predict_call
| float_call
| send_static_file_call (filename : string).

Definition is_load_model (c : call) : bool :=
  match c with load_model_call _ => true | _ => false end.

Definition is_model_predict (c : call) : bool :=
  match c with model_predict_call => true | _ => false end.

Definition count (p : call -> bool) (l : list call) : nat :=
  length (filter p l).

(** ** The libraries *)

Record Env : Type := mk_env {
  pil_image : Type;
  ndarray : Type;
  keras_model : Type;
  (* os.path.exists(p) *)
  os_path_exists : string -> bool;
  (* tf.keras.models.load_model(p) *)
  load_model : string -> result keras_model;
  (* m.input_shape *)
  model_input_shape : keras_model -> shape;
  (* flask.render_template_string(source), rendered while the request is
     being handled: Flask puts request, session, g and config in scope *)
  render_template_string : string -> request -> result string;
  (* PIL.Image.open(io.BytesIO(b)) *)
  Image_open : bytes -> result pil_image;
  (* img.convert(mode) *)
  convert : pil_image -> string -> result pil_image;
  (* img.resize(size) *)
  resize : pil_image -> shape -> result pil_image;
  (* image.img_to_array(img) *)
  img_to_array : pil_image -> result ndarray;
  (* np.expand_dims(a, axis=k) *)
  expand_dims : ndarray -> Z -> result ndarray;
  (* xception.preprocess_input(a) *)
  preprocess_input : ndarray -> result ndarray;
  (* m.predict(a) *)
  model_predict : keras_model -> ndarray -> result ndarray;
  (* float(preds[0][0]) *)
  float_item00 : ndarray -> result float;
  (* app.send_static_file(filename) *)
  send_static_file : string -> result response
}.

(** ** Module state and the monad of the module's code *)

(** The two module-level variables the views read, and the log of library
    calls made so far. *)
Record world (E : Env) : Type := mk_world {
  model : option (keras_model E);
  input_shape : shape;
  calls : list call
}.
Arguments mk_world {E} _ _ _.
Arguments model {E} _.
Arguments input_shape {E} _.
Arguments calls {E} _.

(** State and exceptions: a raise keeps the state reached so far. *)
Definition M (E : Env) (A : Type) : Type := world E -> result A * world E.

Section Monad.
Context {E : Env}.

Definition ret {A} (a : A) : M E A := fun w => (Ok a, w).

Definition bind {A B} (m : M E A) (k : A -> M E B) : M E B :=
  fun w =>
    match m w with
    | (Ok a, w') => k a w'
    | (Raise e, w') => (Raise e, w')
    end.

(** A library call: logged, then its outcome. *)
Definition extern {A} (c : call) (r : result A) : M E A :=
  fun w => (r, mk_world (model w) (input_shape w) (calls w ++ [c])).

Definition lift {A} (r : result A) : M E A := fun w => (r, w).

Definition get_model : M E (option (keras_model E)) :=
  fun w => (Ok (model w), w).

Definition get_input_shape : M E shape :=
  fun w => (Ok (input_shape w), w).

Definition set_model (m : option (keras_model E)) : M E unit :=
  fun w => (Ok tt, mk_world m (input_shape w) (calls w)).

Definition set_input_shape (s : shape) : M E unit :=
  fun w => (Ok tt, mk_world (model w) s (calls w)).

(** [try: body / except Exception as e: handler e]. *)
Definition try_except_Exception {A} (body : M E A)
    (handler : py_exception -> M E A) : M E A :=
  fun w =>
    match body w with
    | (Ok a, w') => (Ok a, w')
    | (Raise e, w') =>
        if is_Exception e then handler e w' else (Raise e, w')
    end.
End Monad.

Declare Scope py_scope.
Delimit Scope py_scope with py.
Notation "x <- m ;; k" := (bind m (fun x => k))
  (at level 100, m at next level, right associativity) : py_scope.
Notation "m ;;; k" := (bind m (fun _ => k))
  (at level 100, right associativity) : py_scope.
Local Open Scope py_scope.

(** ** The module *)

Definition model_path : string := "best_model_xception.keras".

Definition default_input_shape : shape := [Some 299%Z; Some 299%Z].

(** Lines 13-22: the model is loaded when its file exists.  The two
    [print] calls write to the console only and are left out. *)
Definition startup (E : Env) : M E unit :=
  found <- extern (os_path_exists_call model_path)
                  (Ok (os_path_exists E model_path)) ;;
  if (found : bool) then
    m <- extern (load_model_call model_path) (load_model E model_path) ;;
    set_model (Some m) ;;;
    d <- lift (tuple_item (model_input_shape E m) 1) ;;
    set_input_shape
      (match d with
       | Some _ => tuple_slice (model_input_shape E m) 1 3
       | None => default_input_shape
       end)
  else
    set_model None ;;;
    set_input_shape default_input_shape.

(** Lines 24-96.  [dq] is the double quote, [unlines] ends every line with
    a newline: the literal opens with a newline and closes after one. *)
Definition dq : string := String (ascii_of_nat 34) EmptyString.
Definition nl : string := String (ascii_of_nat 10) EmptyString.

Definition unlines (l : list string) : string :=
  fold_right (fun s acc => s ++ nl ++ acc) EmptyString l.

Definition HTML_TEMPLATE : string :=
  unlines [
    EmptyString;
    "<!DOCTYPE html>";
    "<html lang=" ++ dq ++ "ko" ++ dq ++ ">";
    "<head>";
    "    <meta charset=" ++ dq ++ "UTF-8" ++ dq ++ ">";
    "    <title>강아지 vs 고양이 분류기</title>";
    "    <style>";
    "        body { font-family: 'Segoe UI', Tahoma, Geneva, Verdana, sans-serif; text-align: center; margin-top: 50px; background-color: #f4f4f9; color: #333; }";
    "        .container { max-width: 600px; margin: auto; padding: 20px; background: white; border-radius: 10px; box-shadow: 0 4px 8px rgba(0,0,0,0.1); }";
    "        h1 { color: #5a67d8; }";
    "        input[type=" ++ dq ++ "file" ++ dq ++ "] { margin: 20px 0; }";
    "        .btn { background-color: #5a67d8; color: white; padding: 10px 20px; border: none; border-radius: 5px; cursor: pointer; font-size: 16px; transition: background-color 0.3s; }";
    "        .btn:hover { background-color: #434ce6; }";
    "        #result { margin-top: 20px; font-size: 24px; font-weight: bold; color: #333; }";
    "        img { max-width: 100%; border-radius: 10px; margin-top: 20px; display: none; margin-left: auto; margin-right: auto; }";
    "        .loading { color: #888; font-style: italic; font-size: 18px; }";
    "    </style>";
    "</head>";
    "<body>";
    "    <div class=" ++ dq ++ "container" ++ dq ++ ">";
    "        <h1>🐱 강아지 vs 고양이 분류기 🐶</h1>";
    "        <p>이미지를 업로드하면 최신 AI(Xception) 모델이 분석하여 결과를 알려줍니다!</p>";
    "        <form id=" ++ dq ++ "upload-form" ++ dq ++ " enctype=" ++ dq ++ "multipart/form-data" ++ dq ++ ">";
    "            <input type=" ++ dq ++ "file" ++ dq ++ " id=" ++ dq ++ "image-input" ++ dq ++ " name=" ++ dq ++ "file" ++ dq ++ " accept=" ++ dq ++ "image/*" ++ dq ++ " required>";
    "            <br>";
    "            <button type=" ++ dq ++ "submit" ++ dq ++ " class=" ++ dq ++ "btn" ++ dq ++ ">분류하기</button>";
    "        </form>";
    "        <img id=" ++ dq ++ "preview" ++ dq ++ " src=" ++ dq ++ "#" ++ dq ++ " alt=" ++ dq ++ "미리보기 이미지" ++ dq ++ " />";
    "        <div id=" ++ dq ++ "result" ++ dq ++ "></div>";
    "    </div>";
    EmptyString;
    "    <script>";
    "        const imageInput = document.getElementById('image-input');";
    "        const preview = document.getElementById('preview');";
    "        const resultDiv = document.getElementById('result');";
    "        ";
    "        imageInput.addEventListener('change', function() {";
    "            const file = this.files[0];";
    "            if (file) {";
    "                const reader = new FileReader();";
    "                reader.onload = function(e) {";
    "                    preview.src = e.target.result;";
    "                    preview.style.display = 'block';";
    "                    resultDiv.innerHTML = '';";
    "                }";
    "                reader.readAsDataURL(file);";
    "            }";
    "        });";
    EmptyString;
    "        document.getElementById('upload-form').onsubmit = async (e) => {";
    "            e.preventDefault();";
    "            const formData = new FormData(e.target);";
    "            resultDiv.innerHTML = '<span class=" ++ dq ++ "loading" ++ dq ++ ">분석 중... ⏳</span>';";
    "            try {";
    "                const response = await fetch('/predict', {";
    "                    method: 'POST',";
    "                    body: formData";
    "                });";
    "                const data = await response.json();";
    "                if (data.error) {";
    "                    resultDiv.innerHTML = '<span style=" ++ dq ++ "color: red;" ++ dq ++ ">에러: ' + data.error + '</span>';";
    "                } else {";
    "                    let predColor = data.prediction.includes('강아지') ? '#2b6cb0' : '#c53030';";
    "                    resultDiv.innerHTML = `결과: <span style=" ++ dq ++ "color: ${predColor};" ++ dq ++ ">${data.prediction}</span><br><span style=" ++ dq ++ "font-size: 16px; font-weight: normal; color: #718096;" ++ dq ++ ">AI 확신도: ${(data.confidence * 100).toFixed(2)}%</span>`;";
    "                }";
    "            } catch (err) {";
    "                resultDiv.innerHTML = '<span style=" ++ dq ++ "color: red;" ++ dq ++ ">서버 오류가 발생했습니다.</span>';";
    "            }";
    "        };";
    "    </script>";
    "</body>";
    "</html>"
  ].

(** Lines 98-100. *)
Definition index (E : Env) (req : request) : M E response :=
  page <- extern render_template_string_call
                 (render_template_string E HTML_TEMPLATE req) ;;
  ret (html_response page).

Definition dog : string := "강아지 🐶".
Definition cat : string := "고양이 🐱".

(** Lines 115-127: from the uploaded file to the scalar [score]. *)
Definition compute_score (E : Env) (m : keras_model E)
    (file : file_storage) : M E float :=
  img_bytes <- extern file_read_call (read file) ;;
  img <- extern Image_open_call (Image_open E img_bytes) ;;
  img <- extern (convert_call "RGB") (convert E img "RGB") ;;
  size <- get_input_shape ;;
  img <- extern (resize_call size) (resize E img size) ;;
  img_array <- extern img_to_array_call (img_to_array E img) ;;
  img_array <- extern (expand_dims_call 0) (expand_dims E img_array 0) ;;
  img_array <- extern preprocess_input_call (preprocess_input E img_array) ;;
  preds <- extern model_predict_call (model_predict E m img_array) ;;
  extern float_call (float_item00 E preds).

(** Lines 130-140: the label, the confidence and the JSON body. *)
Definition format_score (score : float) : response :=
  let '(prediction, confidence) :=
    if (0.5 <? score)%float then (dog, score)
    else (cat, (1.0 - score)%float) in
  jsonify [("prediction", JString prediction);
           ("confidence", JNumber confidence)].

(** Lines 102-142. *)
Definition predict (E : Env) (req : request) : M E response :=
  mdl <- get_model ;;
  match mdl with
  | None =>
      ret (with_status
             (jsonify [("error",
                JString "모델이 로드되지 않았습니다. 서버 설정을 확인하세요.")])
             500)
  | Some m =>
      match files_get "file" (files req) with
      | None =>
          ret (with_status
                 (jsonify [("error",
                    JString "유효한 파일이 전송되지 않았습니다.")])
                 400)
      | Some file =>
          if String.eqb (filename file) EmptyString then
            ret (with_status
                   (jsonify [("error", JString "선택된 파일이 없습니다.")])
                   400)
          else
            try_except_Exception
              (score <- compute_score E m file ;;
               ret (format_score score))
              (fun e =>
                 ret (with_status (jsonify [("error", JString (str e))])
                                  500))
      end
  end.

(** ** The Flask application *)

Record url_rule : Type := mk_rule {
  rule : string;
  rule_methods : list string;
  endpoint : string;
  provide_automatic_options : bool
}.

(** The application object: its URL map and the view function of each
    endpoint. *)
Record flask_app (E : Env) : Type := mk_app {
  url_map : list url_rule;
  view_functions : list (string * (request -> M E response))
}.
Arguments mk_app {E} _ _.
Arguments url_map {E} _.
Arguments view_functions {E} _.

Definition has_method (m : string) (l : list string) : bool :=
  existsb (String.eqb m) l.

(** What Flask makes of the methods of a route: GET when none is given;
    HEAD is added to a rule that answers GET; OPTIONS is added to a rule
    that does not list it, and is then answered by the framework itself. *)
Definition route_methods (methods : option (list string)) : list string :=
  let given := match methods with Some l => l | None => ["GET"] end in
  let with_head :=
    if has_method "GET" given && negb (has_method "HEAD" given)
    then (given ++ ["HEAD"])%list else given in
  if has_method "OPTIONS" given then with_head
  else (with_head ++ ["OPTIONS"])%list.

Definition route_automatic_options (methods : option (list string)) : bool :=
  negb (has_method "OPTIONS"
          (match methods with Some l => l | None => ["GET"] end)).

(** [@a.route(rule, methods=...)] on the function named [name]. *)
Definition route {E : Env} (r : string) (methods : option (list string))
    (name : string) (f : request -> M E response) (a : flask_app E)
  : flask_app E :=
  mk_app
    (url_map a ++
       [mk_rule r (route_methods methods) name
                (route_automatic_options methods)])
    (view_functions a ++ [(name, f)]).

(** The view of the static rule: [send_static_file(filename)], where
    [filename] is what follows [/static/] in the path. *)
Definition static_filename (p : string) : string :=
  substring 8 (String.length p - 8) p.

Definition static_view (E : Env) (req : request) : M E response :=
  extern (send_static_file_call (static_filename (path req)))
         (send_static_file E (static_filename (path req))).

(** [Flask(__name__)]: with the default static folder, the constructor
    registers the rule [/static/<path:filename>] and its view through the
    same registration as [route].  [builtin] stands for rules that are in
    the map before that; Flask itself starts from [[]], so the application
    of this module is [app E []]. *)
Definition Flask {E : Env} (builtin : list url_rule) : flask_app E :=
  route "/static/<path:filename>" None "static" (static_view E)
    (mk_app builtin []).

(** Lines 10, 98 and 102. *)
Definition app (E : Env) (builtin : list url_rule) : flask_app E :=
  route "/predict" (Some ["POST"]) "predict" (predict E)
    (route "/" None "index" (index E)
       (Flask builtin)).

Definition static_rule : url_rule :=
  mk_rule "/static/<path:filename>" ["GET"; "HEAD"; "OPTIONS"] "static" true.
Definition index_rule : url_rule :=
  mk_rule "/" ["GET"; "HEAD"; "OPTIONS"] "index" true.
Definition predict_rule : url_rule :=
  mk_rule "/predict" ["POST"; "OPTIONS"] "predict" true.

(** The rules of [a] that were registered after the [n] built-in ones. *)
Definition registered {E : Env} (n : nat) (a : flask_app E) : list url_rule :=
  skipn n (url_map a).

(** What a [<path:...>] variable accepts: a non-empty text that does not
    begin with a slash. *)
Definition path_variable_ok (rest : string) : bool :=
  match rest with
  | EmptyString => false
  | String c _ => negb (Ascii.eqb c "/")
  end.

(** Whether the path [p] fits the rule [r].  A rule without a variable
    fits the equal path only; the one variable of this application is the
    [<path:filename>] that ends the static rule. *)
Fixpoint rule_path_matches (r p : string) : bool :=
  match r with
  | EmptyString =>
      match p with EmptyString => true | String _ _ => false end
  | String c r' =>
      if Ascii.eqb c "<" then path_variable_ok p
      else
        match p with
        | EmptyString => false
        | String d p' => Ascii.eqb c d && rule_path_matches r' p'
        end
  end.

Definition rule_matches (req : request) (r : url_rule) : bool :=
  rule_path_matches (rule r) (path req) &&
  has_method (method req) (rule_methods r).

Fixpoint view_get {E : Env} (name : string)
    (vs : list (string * (request -> M E response)))
  : option (request -> M E response) :=
  match vs with
  | [] => None
  | (n, f) :: vs' => if String.eqb name n then Some f else view_get name vs'
  end.

(** The view function a request is dispatched to, if any: an OPTIONS
    request to a rule with automatic options is answered by the framework
    and runs no view. *)
Definition match_request {E : Env} (a : flask_app E) (req : request)
  : option (request -> M E response) :=
  match find (rule_matches req) (url_map a) with
  | Some r =>
      if provide_automatic_options r && String.eqb (method req) "OPTIONS"
      then None
      else view_get (endpoint r) (view_functions a)
  | None => None
  end.

(** Whether [p] is a path of the static rule. *)
Definition static_path (p : string) : bool :=
  String.prefix "/static/" p && path_variable_ok (static_filename p).

Definition get_or_head (req : request) : bool :=
  String.eqb (method req) "GET" || String.eqb (method req) "HEAD".

(** One request: the state the server is left in.  A request no view
    answers is the framework's business and touches nothing. *)
Definition handle {E : Env} (a : flask_app E) (req : request) (w : world E)
  : world E :=
  match match_request a req with
  | Some f => snd (f req w)
  | None => w
  end.

(** The server after a sequence of requests. *)
Definition serve {E : Env} (a : flask_app E) (reqs : list request)
    (w : world E) : world E :=
  fold_left (fun w req => handle a req w) reqs w.

(** ** The page's script

    Lines 46-50 and 73-92, inside the template: the form posts its file
    input, named [file], to [/predict]; the answer, parsed as JSON, decides
    what is written into the result element.  JavaScript strings are
    sequences of UTF-16 code units and the strings here are UTF-8 bytes: on
    well-formed text one string occurs in another in both encodings or in
    neither.  How the browser prints and reads numbers is a parameter. *)

Record Browser : Type := mk_browser {
  (* x.toFixed(2) *)
  toFixed2 : float -> string;
  (* String(x), for a number x *)
  number_to_string : float -> string;
  (* Number(s), for a string s *)
  string_to_number : string -> float
}.

(** Lines 47 and 75-81: the form data holds the input named [file] and is
    posted to [/predict]. *)
Definition page_request (f : file_storage) : request :=
  mk_request "POST" "/predict" [("file", f)].

(** [s.includes(sub)]. *)
Fixpoint includes (s sub : string) : bool :=
  String.prefix sub s ||
  match s with
  | EmptyString => false
  | String _ s' => includes s' sub
  end.

(** A property of the parsed object is [None] when it is [undefined].
    Truthiness, [String(v)] and [Number(v)] of such a value. *)
Definition js_truthy (v : option json) : bool :=
  match v with
  | None => false
  | Some (JString s) => negb (String.eqb s EmptyString)
  | Some (JNumber x) => negb ((x =? 0)%float || is_nan x)
  end.

Definition js_to_string (B : Browser) (v : option json) : string :=
  match v with
  | None => "undefined"
  | Some (JString s) => s
  | Some (JNumber x) => number_to_string B x
  end.

Definition js_to_number (B : Browser) (v : option json) : float :=
  match v with
  | None => nan
  | Some (JString s) => string_to_number B s
  | Some (JNumber x) => x
  end.

(** The markup of lines 76, 84, 87 and 90. *)
Definition loading_html : string :=
  "<span class=" ++ dq ++ "loading" ++ dq ++ ">분석 중... ⏳</span>".

Definition error_html (msg : string) : string :=
  "<span style=" ++ dq ++ "color: red;" ++ dq ++ ">에러: " ++ msg ++ "</span>".

Definition result_html (predColor prediction percent : string) : string :=
  "결과: <span style=" ++ dq ++ "color: " ++ predColor ++ ";" ++ dq ++ ">"
  ++ prediction ++ "</span><br><span style=" ++ dq
  ++ "font-size: 16px; font-weight: normal; color: #718096;" ++ dq
  ++ ">AI 확신도: " ++ percent ++ "%</span>".

Definition server_error_html : string :=
  "<span style=" ++ dq ++ "color: red;" ++ dq
  ++ ">서버 오류가 발생했습니다.</span>".

(** Lines 83-88, for the parsed answer [data]; calling [includes] on a
    value that is not a string throws, which the [catch] of line 89 turns
    into the server-error markup. *)
Definition on_response (B : Browser) (data : dict) : string :=
  if js_truthy (dict_get "error" data) then
    error_html (js_to_string B (dict_get "error" data))
  else
    match dict_get "prediction" data with
    | Some (JString prediction) =>
        let predColor :=
          if includes prediction "강아지" then "#2b6cb0" else "#c53030" in
        result_html predColor prediction
          (toFixed2 B
             (js_to_number B (dict_get "confidence" data) * 100)%float)
    | _ => server_error_html
    end.

(** What [fetch] and [response.json()] come to: a rejected promise or the
    parsed object. *)
Inductive fetched : Type :=
| NetworkError
| NotJson
| Parsed (data : dict).

(** Lines 77-91: the [try] block and its [catch]. *)
Definition on_submit (B : Browser) (r : fetched) : string :=
  match r with
  | Parsed data => on_response B data
  | NetworkError | NotJson => server_error_html
  end.

(** What [response.json()] makes of the body [jsonify] wrote for [d]:
    Python writes a NaN or an infinite float as the bare word [NaN],
    [Infinity] or [-Infinity], which is not JSON, and the promise is
    rejected; strings and finite floats come back as they were. *)
Definition json_finite (v : json) : bool :=
  match v with
  | JString _ => true
  | JNumber x => is_finite x
  end.

Definition receive (d : dict) : fetched :=
  if forallb (fun kv => json_finite (snd kv)) d then Parsed d else NotJson.

(** ** Vocabulary of the statements *)

(** What the template renderer does with a source that holds none of
    Jinja's opening delimiters and no carriage return: it copies the text
    and, by default, drops one final newline. *)
Definition jinja_static (source : string) : bool :=
  negb (includes source "{{" || includes source "{%" || includes source "{#"
        || includes source (String (ascii_of_nat 13) EmptyString)).

Fixpoint without_final_newline (s : string) : string :=
  match s with
  | EmptyString => EmptyString
  | String c EmptyString =>
      if Ascii.eqb c (ascii_of_nat 10) then EmptyString else s
  | String c s' => String c (without_final_newline s')
  end.

(** The renderer of [E] follows that rule, whatever the request. *)
Definition renders_static (E : Env) : Prop :=
  forall source req,
    jinja_static source = true ->
    render_template_string E source req = Ok (without_final_newline source).

(** The library calls made between the states [w] and [w']. *)
Definition calls_since {E : Env} (w w' : world E) : list call :=
  skipn (length (calls w)) (calls w').

(** The request passes the three guards of lines 104-112: the model [m] is
    loaded and the request carries the file [file], whose name is not
    empty. *)
Definition accepted {E : Env} (req : request) (w : world E)
    (m : keras_model E) (file : file_storage) : Prop :=
  model w = Some m /\
  files_get "file" (files req) = Some file /\
  filename file <> EmptyString.

(** The library calls of lines 115-127, in the order of the source. *)
Definition inference_steps (size : shape) : list call :=
  [file_read_call; Image_open_call; convert_call "RGB"; resize_call size;
   img_to_array_call; expand_dims_call 0; preprocess_input_call;
   model_predict_call; float_call].

(** Written from the wording of C4, not from the handler's code: the steps
    of an inference on [file], each one given what the step before returned,
    up to the first that raises.  The result is the calls made, the raising one
    last, and the score or the exception. *)
Definition steps_in_order (E : Env) (m : keras_model E) (size : shape)
    (file : file_storage) : list call * result float :=
  let steps := inference_steps size in
  (* read the whole file's bytes *)
  match read file with
  | Raise e => (firstn 1 steps, Raise e)
  | Ok file_bytes =>
  (* decode them as an image and convert to RGB *)
  match Image_open E file_bytes with
  | Raise e => (firstn 2 steps, Raise e)
  | Ok decoded =>
  match convert E decoded "RGB" with
  | Raise e => (firstn 3 steps, Raise e)
  | Ok rgb =>
  (* resize to the input shape *)
  match resize E rgb size with
  | Raise e => (firstn 4 steps, Raise e)
  | Ok resized =>
  (* apply the Xception preprocessing, on the image as a batch of one *)
  match img_to_array E resized with
  | Raise e => (firstn 5 steps, Raise e)
  | Ok pixels =>
  match expand_dims E pixels 0 with
  | Raise e => (firstn 6 steps, Raise e)
  | Ok batch =>
  match preprocess_input E batch with
  | Raise e => (firstn 7 steps, Raise e)
  | Ok prepared =>
  (* run the model's forward pass *)
  match model_predict E m prepared with
  | Raise e => (firstn 8 steps, Raise e)
  | Ok preds =>
  (* the resulting scalar *)
  match float_item00 E preds with
  | Raise e => (steps, Raise e)
  | Ok score => (steps, Ok score)
  end end end end end end end end end.

(** What [predict] makes of the outcome of the steps: the formatted score,
    the error answer of line 142 for an instance of [Exception], the
    exception itself otherwise. *)
Definition answer_of (outcome : result float) : result response :=
  match outcome with
  | Ok score => Ok (format_score score)
  | Raise e =>
      if is_Exception e
      then Ok (mk_response (Json [("error", JString (str e))]) 500)
      else Raise e
  end.

(** The body of a successful answer (lines 137-140). *)
Definition prediction_body (label : string) (confidence : float) : body :=
  Json [("prediction", JString label); ("confidence", JNumber confidence)].

(** The body of an error answer. *)
Definition error_body (msg : string) : body := Json [("error", JString msg)].

Definition body_has_key (k : string) (b : body) : bool :=
  match b with
  | Json d => has_key k d
  | Html _ => false
  end.

Definition body_get (k : string) (b : body) : option json :=
  match b with
  | Json d => dict_get k d
  | Html _ => None
  end.

(** Python's [max(a, b)] on floats. *)
Definition float_max (a b : float) : float :=
  if (a <? b)%float then b else a.

(** The request is turned away by one of the guards of lines 104-112. *)
Definition rejected {E : Env} (req : request) (w : world E) : Prop :=
  model w = None \/
  files_get "file" (files req) = None \/
  exists file,
    files_get "file" (files req) = Some file /\ filename file = EmptyString.

(** The outcome is an error answer with the given status. *)
Definition is_error (r : result response) (code : Z) : Prop :=
  exists msg, r = Ok (mk_response (error_body msg) code).

(** What a run of a piece of the module leaves behind: the two variables
    untouched and some calls [tr] added to the log. *)
Definition extends {E : Env} (w w' : world E) (tr : list call) : Prop :=
  model w' = model w /\ input_shape w' = input_shape w /\
  calls w' = (calls w ++ tr)%list.

(** A state reached from [w] without touching the two variables and
    without loading a model. *)
Definition same_model {E : Env} (w w' : world E) : Prop :=
  model w' = model w /\ input_shape w' = input_shape w /\
  exists tr, calls w' = (calls w ++ tr)%list /\ count is_load_model tr = 0.

(** ** Binary64 constants

    The [SpecFloat] forms of 0, 0.5 and 1.0; [two52] is the mantissa of a
    power of two. *)
Definition two52 : positive := 4503599627370496.
Definition SF_zero : spec_float := S754_zero false.
Definition SF_half : spec_float := S754_finite false two52 (-53).
Definition SF_one : spec_float := S754_finite false two52 (-52).

(** ** Test doubles

    Libraries whose images, arrays and models carry no data: the model file
    is there or not, decoding and the forward pass return or raise as told,
    and the model's first output is [score].  The renderer copies its source
    without the final newline, and the static folder is empty. *)
Definition NotFound : py_exception := mk_exception true "404 Not Found".

Definition stub_env (found : bool) (opened predicted : result unit)
    (score : float) : Env :=
  mk_env unit unit unit
    (fun _ => found)
    (fun _ => Ok tt)
    (fun _ => [None; Some 299%Z; Some 299%Z; Some 3%Z])
    (fun source _ => Ok (without_final_newline source))
    (fun _ => opened)
    (fun _ _ => Ok tt)
    (fun _ _ => Ok tt)
    (fun _ => Ok tt)
    (fun _ _ => Ok tt)
    (fun _ => Ok tt)
    (fun _ _ => predicted)
    (fun _ => Ok score)
    (fun _ => Raise NotFound).

(** Everything works and the model answers [score]. *)
Definition working_env (score : float) : Env :=
  stub_env true (Ok tt) (Ok tt) score.

(** The upload is not an image: PIL raises [UnidentifiedImageError]. *)
Definition UnidentifiedImageError : py_exception :=
  mk_exception true "cannot identify image file".

Definition bad_image_env : Env :=
  stub_env true (Raise UnidentifiedImageError) (Ok tt) 0.5.

(** The forward pass is interrupted. *)
Definition interrupted_env : Env :=
  stub_env true (Ok tt) (Raise KeyboardInterrupt) 0.5.

(** No model file. *)
Definition no_model_env : Env := stub_env false (Ok tt) (Ok tt) 0.5.

Definition upload (name : string) : file_storage := mk_file name (Ok []).

Definition upload_request (name : string) : request :=
  mk_request "POST" "/predict" [("file", upload name)].

Definition get_index : request := mk_request "GET" "/" [].

Definition head_index : request := mk_request "HEAD" "/" [].

Definition get_static (name : string) : request :=
  mk_request "GET" ("/static/" ++ name) [].

(** A POST with no file part. *)
Definition empty_post : request := mk_request "POST" "/predict" [].

(** The state after a start with the model file present, and before any
    start. *)
Definition loaded (E : Env) (m : keras_model E) : world E :=
  mk_world (Some m) default_input_shape [].

Definition fresh (E : Env) : world E := mk_world None [] [].

(** A browser whose number formatting is left blank. *)
Definition plain_browser : Browser :=
  mk_browser (fun _ => "?") (fun _ => "?") (fun _ => nan).

(** A model whose input shape has too few entries. *)
Definition flat_model_env : Env :=
  mk_env unit unit unit
    (fun _ => true)
    (fun _ => Ok tt)
    (fun _ => [None])
    (fun source _ => Ok (without_final_newline source))
    (fun _ => Ok tt)
    (fun _ _ => Ok tt)
    (fun _ _ => Ok tt)
    (fun _ => Ok tt)
    (fun _ _ => Ok tt)
    (fun _ => Ok tt)
    (fun _ _ => Ok tt)
    (fun _ => Ok 0.5%float)
    (fun _ => Raise NotFound).

(** An exception with an empty message, as a bare [assert] raises. *)
Definition AssertionError : py_exception := mk_exception true EmptyString.

Definition failed_assert_env : Env :=
  stub_env true (Ok tt) (Raise AssertionError) 0.5.

(** Case analysis on the outcome of the next library call. *)
Ltac next_call :=
  match goal with
  | |- context [match ?r with Ok _ => _ | Raise _ => _ end] =>
      lazymatch r with
      | context [Raise] => fail
      | _ => destruct r; cbn [fst snd model input_shape calls]
      end
  end.

(** * Properties *)

Local Open Scope list_scope.

(** ** The code on concrete inputs *)

Example HTML_TEMPLATE_length : String.length HTML_TEMPLATE = 3470.
Proof. vm_compute. reflexivity. Qed.

Example format_score_dog :
  format_score 0.75 = mk_response (prediction_body dog 0.75) 200.
Proof. reflexivity. Qed.

Example format_score_cat :
  format_score 0.25 = mk_response (prediction_body cat 0.75) 200.
Proof. reflexivity. Qed.

Example format_score_half :
  format_score 0.5 = mk_response (prediction_body cat 0.5) 200.
Proof. reflexivity. Qed.

Example format_score_nan :
  format_score nan = mk_response (prediction_body cat nan) 200.
Proof. reflexivity. Qed.

Example startup_with_model :
  startup (working_env 0.5) (fresh (working_env 0.5)) =
    (Ok tt,
     @mk_world (working_env 0.5) (Some tt) [Some 299%Z; Some 299%Z]
       [os_path_exists_call model_path; load_model_call model_path]).
Proof. reflexivity. Qed.

Example startup_without_model :
  startup no_model_env (fresh no_model_env) =
    (Ok tt,
     @mk_world no_model_env None [Some 299%Z; Some 299%Z]
       [os_path_exists_call model_path]).
Proof. reflexivity. Qed.

Example index_page :
  index (working_env 0.5) get_index (loaded (working_env 0.5) tt) =
    (Ok (html_response (without_final_newline HTML_TEMPLATE)),
     @mk_world (working_env 0.5) (Some tt) default_input_shape
       [render_template_string_call]).
Proof. reflexivity. Qed.

Example predict_dog :
  predict (working_env 0.75) (upload_request "dog.jpg")
          (loaded (working_env 0.75) tt) =
    (Ok (mk_response (prediction_body dog 0.75) 200),
     @mk_world (working_env 0.75) (Some tt) default_input_shape
       (inference_steps default_input_shape)).
Proof. reflexivity. Qed.

Example predict_bad_image :
  predict bad_image_env (upload_request "notes.txt")
          (loaded bad_image_env tt) =
    (Ok (mk_response (error_body "cannot identify image file") 500),
     @mk_world bad_image_env (Some tt) default_input_shape
       [file_read_call; Image_open_call]).
Proof. reflexivity. Qed.

(** ** Running the code *)

Lemma calls_since_app {E : Env} (w w' : world E) (tr : list call) :
  calls w' = calls w ++ tr -> calls_since w w' = tr.
Proof.
  intros H. unfold calls_since. rewrite H.
  rewrite skipn_app, skipn_all, Nat.sub_diag. reflexivity.
Qed.

Lemma calls_since_refl {E : Env} (w : world E) : calls_since w w = [].
Proof. apply calls_since_app. now rewrite app_nil_r. Qed.


Lemma extends_refl {E : Env} (w : world E) : extends w w [].
Proof. unfold extends. now rewrite app_nil_r. Qed.

Lemma extends_calls_since {E : Env} (w w' : world E) tr :
  extends w w' tr -> calls_since w w' = tr.
Proof. intros (_ & _ & H). now apply calls_since_app. Qed.

(** Lines 115-127 stop at the first call that raises: the log grows by an
    initial segment of [inference_steps], the whole of it when a score is
    returned. *)

Lemma compute_score_run (E : Env) (m : keras_model E) (file : file_storage)
    (w : world E) :
  exists tr rest,
    extends w (snd (compute_score E m file w)) (file_read_call :: tr) /\
    inference_steps (input_shape w) = file_read_call :: tr ++ rest /\
    (forall score, fst (compute_score E m file w) = Ok score -> rest = []).
Proof.
  unfold compute_score, bind, extern, get_input_shape, extends, inference_steps.
  destruct w as [mo sh cs]; cbn [model input_shape calls].
  repeat next_call.
  all: rewrite <- ?app_assoc; cbn [app].
  all: eexists; eexists; split; [repeat split; reflexivity | split];
    [ cbn [app]; reflexivity | try discriminate ].
  intros; reflexivity.
Qed.

Lemma count_app (p : call -> bool) (l1 l2 : list call) :
  count p (l1 ++ l2) = count p l1 + count p l2.
Proof. unfold count. now rewrite filter_app, length_app. Qed.

(** The four ways through [predict]. *)
Lemma predict_run (E : Env) (req : request) (w : world E) :
  match model w with
  | None =>
      exists msg, predict E req w = (Ok (mk_response (error_body msg) 500), w)
  | Some m =>
      match files_get "file" (files req) with
      | None =>
          exists msg,
            predict E req w = (Ok (mk_response (error_body msg) 400), w)
      | Some file =>
          if String.eqb (filename file) EmptyString then
            exists msg,
              predict E req w = (Ok (mk_response (error_body msg) 400), w)
          else
            match compute_score E m file w with
            | (Ok score, w1) => predict E req w = (Ok (format_score score), w1)
            | (Raise e, w1) =>
                predict E req w =
                  (if is_Exception e
                   then Ok (mk_response (error_body (str e)) 500)
                   else Raise e, w1)
            end
      end
  end.
Proof.
  unfold predict, bind, get_model, try_except_Exception, ret.
  destruct (model w) as [m|]; [| eexists; reflexivity].
  destruct (files_get "file" (files req)) as [file|]; [| eexists; reflexivity].
  destruct (String.eqb (filename file) EmptyString); [eexists; reflexivity |].
  destruct (compute_score E m file w) as [[score|e] w1]; [reflexivity |].
  destruct (is_Exception e); reflexivity.
Qed.

Lemma accepted_run (E : Env) (req : request) (w : world E)
    (m : keras_model E) (file : file_storage) :
  accepted req w m file ->
  match compute_score E m file w with
  | (Ok score, w1) => predict E req w = (Ok (format_score score), w1)
  | (Raise e, w1) =>
      predict E req w =
        (if is_Exception e
         then Ok (mk_response (error_body (str e)) 500)
         else Raise e, w1)
  end.
Proof.
  intros (Hm & Hf & Hn). pose proof (predict_run E req w) as H.
  rewrite Hm, Hf in H.
  apply String.eqb_neq in Hn. now rewrite Hn in H.
Qed.

(** The handler's lines 115-127 run the steps of [steps_in_order]. *)
Lemma compute_score_steps (E : Env) (m : keras_model E) (file : file_storage)
    (w : world E) :
  compute_score E m file w =
    (snd (steps_in_order E m (input_shape w) file),
     mk_world (model w) (input_shape w)
       (calls w ++ fst (steps_in_order E m (input_shape w) file))).
Proof.
  unfold compute_score, steps_in_order, bind, extern, get_input_shape,
    inference_steps.
  destruct w as [mo sh cs]; cbn [model input_shape calls].
  repeat next_call.
  all: cbn [fst snd firstn]; rewrite <- ?app_assoc; cbn [app];
    reflexivity.
Qed.

Lemma accepted_answer (E : Env) (req : request) (w : world E)
    (m : keras_model E) (file : file_storage) :
  accepted req w m file ->
  predict E req w =
    (answer_of (snd (steps_in_order E m (input_shape w) file)),
     mk_world (model w) (input_shape w)
       (calls w ++ fst (steps_in_order E m (input_shape w) file))).
Proof.
  intros Hacc. pose proof (accepted_run E req w m file Hacc) as H.
  rewrite compute_score_steps in H. unfold answer_of.
  destruct (snd (steps_in_order E m (input_shape w) file)) as [score|e];
    exact H.
Qed.


Lemma format_score_eq (score : float) :
  format_score score =
    mk_response
      (prediction_body (if (0.5 <? score)%float then dog else cat)
                       (if (0.5 <? score)%float then score
                        else (1.0 - score)%float))
      200.
Proof. unfold format_score. now destruct (0.5 <? score)%float. Qed.

(** ** The label and the answer of [POST /predict] *)

(** C1.  Every inference run by [predict] maps its score to a label by the
    threshold 0.5: the dog label when [score > 0.5], the cat label otherwise,
    a score of exactly 0.5 included; and whatever label a response carries is
    one of these two. *)
Theorem predict_label_threshold (E : Env) (req : request) (w : world E) :
  (forall m file score w1,
      accepted req w m file ->
      compute_score E m file w = (Ok score, w1) ->
      exists resp,
        predict E req w = (Ok resp, w1) /\
        body_get "prediction" (resp_body resp) =
          Some (JString (if (0.5 <? score)%float then dog else cat))) /\
  (forall resp w' label,
      predict E req w = (Ok resp, w') ->
      body_get "prediction" (resp_body resp) = Some label ->
      label = JString dog \/ label = JString cat) /\
  body_get "prediction" (resp_body (format_score 0.5)) = Some (JString cat).
Proof.
  split; [| split].
  - intros m file score w1 Hacc Hrun.
    pose proof (accepted_run E req w m file Hacc) as H. rewrite Hrun in H.
    eexists; split; [exact H |].
    rewrite format_score_eq. reflexivity.
  - intros resp w' label Hp Hl.
    pose proof (predict_run E req w) as H.
    destruct (model w) as [m|].
    2:{ destruct H as [msg H]. rewrite H in Hp. inversion Hp; subst.
        discriminate Hl. }
    destruct (files_get "file" (files req)) as [file|].
    2:{ destruct H as [msg H]. rewrite H in Hp. inversion Hp; subst.
        discriminate Hl. }
    destruct (String.eqb (filename file) EmptyString).
    1:{ destruct H as [msg H]. rewrite H in Hp. inversion Hp; subst.
        discriminate Hl. }
    destruct (compute_score E m file w) as [[score|e] w1].
    + rewrite H in Hp. inversion Hp; subst. rewrite format_score_eq in Hl.
      cbn in Hl. inversion Hl.
      destruct (0.5 <? score)%float; [left | right]; reflexivity.
    + rewrite H in Hp. destruct (is_Exception e); inversion Hp; subst.
      discriminate Hl.
  - reflexivity.
Qed.

Lemma predict_label_threshold_witness :
  (exists resp,
     predict (working_env 0.75) (upload_request "dog.jpg")
             (loaded (working_env 0.75) tt)
       = (Ok resp,
          snd (compute_score (working_env 0.75) tt (upload "dog.jpg")
                             (loaded (working_env 0.75) tt))) /\
     body_get "prediction" (resp_body resp) = Some (JString dog)) /\
  (JString cat = JString dog \/ JString cat = JString cat).
Proof.
  pose proof (predict_label_threshold (working_env 0.5)
                (upload_request "cat.jpg") (loaded (working_env 0.5) tt))
    as (_ & Hback & _).
  pose proof (predict_label_threshold (working_env 0.75)
                (upload_request "dog.jpg") (loaded (working_env 0.75) tt))
    as (Hfwd & _ & _).
  split.
  - apply (Hfwd tt (upload "dog.jpg") 0.75%float).
    + split; [reflexivity | split; [reflexivity | discriminate]].
    + reflexivity.
  - eapply Hback; reflexivity.
Defined.



(** ** Start-up *)

(** C3.  When the model file exists, [load_model] is called exactly once
    and, if it returns, its result becomes [model] and [input_shape] is read
    off the model (line 17); when the file is absent, nothing is loaded,
    [model] is [None], [input_shape] is (299, 299) and the start-up returns
    normally. *)
Theorem startup_loads_once (E : Env) (w : world E) :
  let r := fst (startup E w) in
  let w' := snd (startup E w) in
  if os_path_exists E model_path then
    count is_load_model (calls_since w w') = 1 /\
    match load_model E model_path with
    | Ok m =>
        model w' = Some m /\
        match tuple_item (model_input_shape E m) 1 with
        | Ok (Some _) =>
            r = Ok tt /\
            input_shape w' = tuple_slice (model_input_shape E m) 1 3
        | Ok None => r = Ok tt /\ input_shape w' = default_input_shape
        | Raise e => r = Raise e
        end
    | Raise e => r = Raise e
    end
  else
    count is_load_model (calls_since w w') = 0 /\
    r = Ok tt /\ model w' = None /\ input_shape w' = default_input_shape.
Proof.
  assert (Hlog : forall (w' : world E) pre,
            calls w' = (calls w ++ [os_path_exists_call model_path])
                         ++ [load_model_call model_path] ++ pre ->
            pre = [] ->
            count is_load_model (calls_since w w') = 1).
  { intros w' pre Hc ->. rewrite <- app_assoc in Hc.
    now rewrite (calls_since_app _ _ _ Hc). }
  unfold startup, bind, extern, set_model, set_input_shape, lift.
  destruct w as [mo sh cs]; cbn [model input_shape calls fst snd] in *.
  destruct (os_path_exists E model_path).
  - destruct (load_model E model_path) as [m|e];
      cbn [model input_shape calls fst snd].
    + destruct (tuple_item (model_input_shape E m) 1) as [[d|]|e];
        cbn [model input_shape calls fst snd];
        (split; [eapply Hlog; cbn [calls]; reflexivity | repeat split]).
    + split; [eapply Hlog; cbn [calls]; reflexivity | reflexivity].
  - cbn [model input_shape calls fst snd]. repeat split.
    erewrite calls_since_app with (tr := [os_path_exists_call model_path]);
      reflexivity.
Qed.

(** ** The steps of an inference *)




(** ** Guards and exceptions *)

Lemma rejected_dec {E : Env} (req : request) (w : world E) :
  rejected req w \/
  exists m file, accepted req w m file.
Proof.
  unfold rejected, accepted.
  destruct (model w) as [m|]; [| left; left; reflexivity].
  destruct (files_get "file" (files req)) as [file|];
    [| left; right; left; reflexivity].
  destruct (String.eqb_spec (filename file) EmptyString) as [Heq|Hne].
  - left; right; right. now exists file.
  - right. now exists m, file.
Qed.

Lemma accepted_not_rejected {E : Env} (req : request) (w : world E) m file :
  accepted req w m file -> ~ rejected req w.
Proof.
  intros (Hm & Hf & Hn) [H | [H | (f & H & Hempty)]]; congruence.
Qed.

(** C5.  [predict] answers with an error object and without running any
    step of the inference exactly when the model is not loaded (status 500),
    the request has no [file] part (status 400) or the file name is empty
    (status 400); in every other case the inference is started. *)
Theorem predict_guards (E : Env) (req : request) (w : world E) :
  let r := fst (predict E req w) in
  let done := calls_since w (snd (predict E req w)) in
  (((exists code, is_error r code) /\ done = []) <-> rejected req w) /\
  (model w = None -> is_error r 500) /\
  (model w <> None ->
   (files_get "file" (files req) = None \/
    exists file,
      files_get "file" (files req) = Some file /\
      filename file = EmptyString) ->
   is_error r 400) /\
  (~ rejected req w -> exists tr, done = file_read_call :: tr).
Proof.
  intros r done.
  pose proof (predict_run E req w) as H.
  assert (Hstart : forall m file, accepted req w m file ->
                     exists tr, done = file_read_call :: tr).
  { intros m file Hacc.
    pose proof (accepted_run E req w m file Hacc) as Hr.
    destruct (compute_score_run E m file w) as (tr & rest & Hext & _).
    exists tr. unfold done. apply extends_calls_since.
    destruct (compute_score E m file w) as [[score|e] w1]; rewrite Hr;
      exact Hext. }
  split; [split |].
  - intros [_ Hnil].
    destruct (rejected_dec req w) as [Hrej | (m & file & Hacc)];
      [exact Hrej |].
    destruct (Hstart m file Hacc) as [tr Htr]. congruence.
  - intros Hrej. unfold r, done.
    destruct Hrej as [Hm | [Hf | (file & Hf & Hempty)]].
    + rewrite Hm in H. destruct H as [msg H]. rewrite H. cbn [fst snd].
      split; [exists 500%Z, msg; reflexivity | apply calls_since_refl].
    + destruct (model w) as [m|]; rewrite ?Hf in H;
        destruct H as [msg H]; rewrite H; cbn [fst snd];
        (split; [eexists; exists msg; reflexivity | apply calls_since_refl]).
    + destruct (model w) as [m|]; rewrite ?Hf, ?Hempty in H;
        cbn [String.eqb] in H;
        destruct H as [msg H]; rewrite H; cbn [fst snd];
        (split; [eexists; exists msg; reflexivity | apply calls_since_refl]).
  - split; [| split].
    + intros Hm. rewrite Hm in H. destruct H as [msg H]. unfold r.
      rewrite H. now exists msg.
    + intros Hm Hfile. unfold r.
      destruct (model w) as [m|]; [| contradiction].
      destruct Hfile as [Hf | (file & Hf & Hempty)].
      * rewrite Hf in H. destruct H as [msg H]. rewrite H. now exists msg.
      * rewrite Hf, Hempty in H. cbn [String.eqb] in H.
        destruct H as [msg H]. rewrite H. now exists msg.
    + intros Hnot.
      destruct (rejected_dec req w) as [Hrej | (m & file & Hacc)];
        [contradiction | eauto].
Qed.

Lemma predict_guards_witness :
  is_error (fst (predict no_model_env (upload_request "cat.jpg")
                         (fresh no_model_env))) 500 /\
  is_error (fst (predict (working_env 0.5) empty_post
                         (loaded (working_env 0.5) tt))) 400 /\
  is_error (fst (predict (working_env 0.5) (upload_request EmptyString)
                         (loaded (working_env 0.5) tt))) 400 /\
  exists tr,
    calls_since (loaded (working_env 0.5) tt)
      (snd (predict (working_env 0.5) (upload_request "cat.jpg")
                    (loaded (working_env 0.5) tt)))
      = file_read_call :: tr.
Proof.
  split; [| split; [| split]].
  - apply (predict_guards no_model_env (upload_request "cat.jpg")
             (fresh no_model_env)). reflexivity.
  - apply (predict_guards (working_env 0.5) empty_post
             (loaded (working_env 0.5) tt)).
    + discriminate.
    + left. reflexivity.
  - apply (predict_guards (working_env 0.5) (upload_request EmptyString)
             (loaded (working_env 0.5) tt)).
    + discriminate.
    + right. exists (upload EmptyString). split; reflexivity.
  - apply (predict_guards (working_env 0.5) (upload_request "cat.jpg")
             (loaded (working_env 0.5) tt)).
    apply (@accepted_not_rejected (working_env 0.5) _ _ tt (upload "cat.jpg")).
    split; [reflexivity | split; [reflexivity | discriminate]].
Defined.

(** C6, as stated, fails: an exception that is not an instance of
    [Exception] leaves [predict] uncaught. *)
Lemma predict_propagates_counterexample :
  accepted (upload_request "cat.jpg") (loaded interrupted_env tt)
           tt (upload "cat.jpg") /\
  fst (predict interrupted_env (upload_request "cat.jpg")
               (loaded interrupted_env tt))
    = Raise KeyboardInterrupt.
Proof.
  split; [split; [reflexivity | split; [reflexivity | discriminate]] |].
  reflexivity.
Qed.

(** C6, amended.  An exception raised by a step of the inference is
    caught when it is an instance of [Exception], and answered by the object
    [{'error': str(e)}] with status 500; one that is not such an instance
    leaves [predict] uncaught.  Nothing else ever leaves [predict] as an
    exception, and no error answer has a [prediction] key. *)
Theorem predict_catches_Exception (E : Env) (req : request) (w : world E) :
  (forall m file e,
      accepted req w m file ->
      snd (steps_in_order E m (input_shape w) file) = Raise e ->
      (is_Exception e = true ->
       fst (predict E req w) = Ok (mk_response (error_body (str e)) 500)) /\
      (is_Exception e = false -> fst (predict E req w) = Raise e)) /\
  (forall e,
      fst (predict E req w) = Raise e ->
      is_Exception e = false /\
      exists m file,
        accepted req w m file /\
        snd (steps_in_order E m (input_shape w) file) = Raise e) /\
  (forall resp,
      fst (predict E req w) = Ok resp ->
      body_has_key "error" (resp_body resp) = true ->
      body_has_key "prediction" (resp_body resp) = false).
Proof.
  split; [| split].
  - intros m file e Hacc Hrun.
    rewrite (accepted_answer E req w m file Hacc), Hrun. cbn [fst answer_of].
    split; intros Hexc; rewrite Hexc; reflexivity.
  - intros e He.
    destruct (rejected_dec req w) as [Hrej | (m & file & Hacc)].
    + exfalso. pose proof (predict_run E req w) as H.
      destruct Hrej as [Hm | [Hf | (file & Hf & Hname)]].
      * rewrite Hm in H. destruct H as [msg H]. rewrite H in He.
        discriminate.
      * destruct (model w); rewrite ?Hf in H; destruct H as [msg H];
          rewrite H in He; discriminate.
      * destruct (model w); rewrite ?Hf, ?Hname in H; cbn [String.eqb] in H;
          destruct H as [msg H]; rewrite H in He; discriminate.
    + rewrite (accepted_answer E req w m file Hacc) in He. cbn [fst] in He.
      destruct (snd (steps_in_order E m (input_shape w) file))
        as [score|e'] eqn:Hrun; cbn [answer_of] in He; [discriminate |].
      destruct (is_Exception e') eqn:Hexc; [discriminate |].
      inversion He; subst e'. split; [exact Hexc |].
      exists m, file. split; [exact Hacc | exact Hrun].
  - intros resp Hr Herr. pose proof (predict_run E req w) as H.
    destruct (model w) as [m|];
      [| destruct H as [msg H]; rewrite H in Hr; inversion Hr; reflexivity].
    destruct (files_get "file" (files req)) as [file|];
      [| destruct H as [msg H]; rewrite H in Hr; inversion Hr; reflexivity].
    destruct (String.eqb (filename file) EmptyString);
      [destruct H as [msg H]; rewrite H in Hr; inversion Hr; reflexivity |].
    destruct (compute_score E m file w) as [[score|e'] w1];
      rewrite H in Hr; cbn [fst] in Hr.
    + inversion Hr; subst. rewrite format_score_eq in Herr.
      discriminate Herr.
    + destruct (is_Exception e'); inversion Hr; reflexivity.
Qed.

Lemma predict_catches_Exception_witness :
  fst (predict bad_image_env (upload_request "notes.txt")
               (loaded bad_image_env tt))
    = Ok (mk_response (error_body "cannot identify image file") 500) /\
  fst (predict interrupted_env (upload_request "cat.jpg")
               (loaded interrupted_env tt))
    = Raise KeyboardInterrupt /\
  is_Exception KeyboardInterrupt = false /\
  body_has_key "prediction"
    (resp_body (mk_response (error_body "cannot identify image file") 500))
    = false.
Proof.
  destruct (predict_catches_Exception bad_image_env
              (upload_request "notes.txt") (loaded bad_image_env tt))
    as (Hcatch & _ & Hkeys).
  destruct (predict_catches_Exception interrupted_env
              (upload_request "cat.jpg") (loaded interrupted_env tt))
    as (Hpass & Hraised & _).
  split; [| split; [| split]].
  - apply (Hcatch tt (upload "notes.txt") UnidentifiedImageError).
    + split; [reflexivity | split; [reflexivity | discriminate]].
    + reflexivity.
    + reflexivity.
  - apply (Hpass tt (upload "cat.jpg") KeyboardInterrupt).
    + split; [reflexivity | split; [reflexivity | discriminate]].
    + reflexivity.
    + reflexivity.
  - apply (Hraised KeyboardInterrupt). reflexivity.
  - apply Hkeys; reflexivity.
Defined.

(** ** The page *)

Lemma HTML_TEMPLATE_static : jinja_static HTML_TEMPLATE = true.
Proof. vm_compute. reflexivity. Qed.

(** C7, as stated, fails: with a renderer that does what Jinja does, the
    page served is not the constant [HTML_TEMPLATE] but that text without its
    final newline. *)
Lemma index_page_counterexample :
  renders_static (working_env 0.5) /\
  (exists page,
     fst (index (working_env 0.5) get_index (loaded (working_env 0.5) tt))
       = Ok (html_response page) /\
     String.length page = 3469 /\
     String.length HTML_TEMPLATE = 3470 /\
     page <> HTML_TEMPLATE).
Proof.
  split; [intros source req _; reflexivity |].
  exists (without_final_newline HTML_TEMPLATE).
  split; [reflexivity |].
  split; [vm_compute; reflexivity |].
  split; [vm_compute; reflexivity |].
  intros H. apply (f_equal String.length) in H. vm_compute in H.
  discriminate H.
Qed.

(** C7, amended.  The template holds no template markup, so with a
    renderer that copies such a source and drops its final newline, as
    Jinja does, [GET /] answers every request, in every state of the server,
    with the same fixed document: the text of [HTML_TEMPLATE] without its
    final newline. *)
Theorem index_static (E : Env) (req req' : request) (w w' : world E) :
  renders_static E ->
  jinja_static HTML_TEMPLATE = true /\
  fst (index E req w) =
    Ok (html_response (without_final_newline HTML_TEMPLATE)) /\
  fst (index E req w) = fst (index E req' w').
Proof.
  intros Hrender.
  assert (Hpage : forall r v,
            fst (index E r v)
            = Ok (html_response (without_final_newline HTML_TEMPLATE))).
  { intros r v. unfold index, bind, extern, ret.
    rewrite (Hrender HTML_TEMPLATE r HTML_TEMPLATE_static). reflexivity. }
  split; [exact HTML_TEMPLATE_static |].
  split; [apply Hpage |]. now rewrite !Hpage.
Qed.

Lemma index_static_witness :
  jinja_static HTML_TEMPLATE = true /\
  fst (index (working_env 0.5) get_index (loaded (working_env 0.5) tt)) =
    Ok (html_response (without_final_newline HTML_TEMPLATE)) /\
  fst (index (working_env 0.5) get_index (loaded (working_env 0.5) tt)) =
    fst (index (working_env 0.5) head_index (fresh (working_env 0.5))).
Proof.
  apply (index_static (working_env 0.5) get_index head_index
           (loaded (working_env 0.5) tt) (fresh (working_env 0.5))).
  intros source req _. reflexivity.
Defined.

(** ** The routes *)

Lemma Flask_url_map (E : Env) (builtin : list url_rule) :
  url_map (@Flask E builtin) = builtin ++ [static_rule].
Proof. reflexivity. Qed.

Lemma app_url_map (E : Env) (builtin : list url_rule) :
  url_map (app E builtin) = builtin ++ [static_rule; index_rule; predict_rule].
Proof.
  unfold app, Flask, route. cbn [url_map].
  rewrite <- !app_assoc. reflexivity.
Qed.

Lemma app_view_functions (E : Env) (builtin : list url_rule) :
  view_functions (app E builtin) =
    [("static", static_view E); ("index", index E); ("predict", predict E)].
Proof. reflexivity. Qed.

Lemma substring_all (s : string) : substring 0 (String.length s) s = s.
Proof.
  induction s as [|c s IH]; [reflexivity |].
  cbn [String.length substring]. now rewrite IH.
Qed.

Lemma no_variable_cons (c : ascii) (r : string) :
  includes (String c r) "<" = false ->
  Ascii.eqb c "<" = false /\ includes r "<" = false.
Proof.
  intros Hr.
  change (includes (String c r) "<")
    with (String.prefix "<" (String c r) || includes r "<") in Hr.
  apply orb_false_elim in Hr. destruct Hr as [Hp Hi].
  split; [| exact Hi].
  cbn [String.prefix] in Hp.
  destruct (ascii_dec "<" c) as [Heq | Hne];
    [destruct r; discriminate Hp |].
  apply Ascii.eqb_neq. congruence.
Qed.

(** A rule without a variable fits the equal path only. *)
Lemma rule_path_matches_exact (r p : string) :
  includes r "<" = false ->
  rule_path_matches r p = String.eqb r p.
Proof.
  revert p. induction r as [|c r IH]; intros p Hr.
  - destruct p; reflexivity.
  - destruct (no_variable_cons c r Hr) as [Hc Hrest].
    cbn [rule_path_matches String.eqb]. rewrite Hc.
    destruct p as [|d p]; [reflexivity |].
    now rewrite IH.
Qed.

(** A rule that ends with a variable fits the paths that continue its
    fixed part with a non-empty text not beginning with a slash. *)
Lemma rule_path_matches_variable (fixed rest p : string) :
  includes fixed "<" = false ->
  rule_path_matches (fixed ++ String "<" rest) p =
    String.prefix fixed p &&
    path_variable_ok
      (substring (String.length fixed)
                 (String.length p - String.length fixed) p).
Proof.
  revert p. induction fixed as [|c fixed IH]; intros p Hf.
  - cbn [append rule_path_matches String.prefix String.length andb].
    change (Ascii.eqb "<" "<") with true. cbv iota.
    rewrite Nat.sub_0_r, substring_all. destruct p; reflexivity.
  - destruct (no_variable_cons c fixed Hf) as [Hc Hrest].
    cbn [append rule_path_matches String.prefix String.length].
    rewrite Hc. destruct p as [|d p]; [reflexivity |].
    cbn [String.length Nat.sub substring].
    rewrite IH by exact Hrest.
    cbn [String.prefix].
    destruct (ascii_dec c d) as [Hcd | Hcd].
    + subst d. now rewrite Ascii.eqb_refl.
    + assert (Hcd' : Ascii.eqb c d = false) by (now apply Ascii.eqb_neq).
      now rewrite Hcd'.
Qed.

(** Dispatch in the application of the module. *)
Lemma match_request_app (E : Env) (req : request) :
  match_request (app E []) req =
    if get_or_head req && static_path (path req)
    then Some (static_view E)
    else if get_or_head req && String.eqb "/" (path req)
    then Some (index E)
    else if String.eqb (method req) "POST" && String.eqb "/predict" (path req)
    then Some (predict E)
    else None.
Proof.
  unfold match_request. rewrite app_url_map, app_view_functions.
  change ([] ++ ?l) with l.
  unfold find, rule_matches, static_rule, index_rule, predict_rule.
  cbn [rule rule_methods endpoint provide_automatic_options].
  assert (Hs : rule_path_matches "/static/<path:filename>" (path req)
               = static_path (path req))
    by (apply (rule_path_matches_variable "/static/" "path:filename>");
        reflexivity).
  rewrite Hs.
  rewrite (rule_path_matches_exact "/" (path req)) by reflexivity.
  rewrite (rule_path_matches_exact "/predict" (path req)) by reflexivity.
  unfold has_method, existsb, get_or_head.
  destruct (static_path (path req));
    destruct (String.eqb "/" (path req));
    destruct (String.eqb "/predict" (path req));
    destruct (String.eqb_spec (method req) "GET") as [Hg|Hg];
    destruct (String.eqb_spec (method req) "HEAD") as [Hh|Hh];
    destruct (String.eqb_spec (method req) "OPTIONS") as [Ho|Ho];
    destruct (String.eqb_spec (method req) "POST") as [Hp|Hp];
    try congruence; reflexivity.
Qed.

Example dispatch_head_index :
  match_request (app no_model_env []) head_index = Some (index no_model_env).
Proof. reflexivity. Qed.

Example dispatch_options_index :
  match_request (app no_model_env []) (mk_request "OPTIONS" "/" []) = None.
Proof. reflexivity. Qed.

Example dispatch_get_predict :
  match_request (app no_model_env []) (mk_request "GET" "/predict" []) = None.
Proof. reflexivity. Qed.

Example dispatch_post_index :
  match_request (app no_model_env []) (mk_request "POST" "/" []) = None.
Proof. reflexivity. Qed.

Example dispatch_static_folder :
  match_request (app no_model_env []) (get_static EmptyString) = None.
Proof. reflexivity. Qed.

(** C9, as stated, fails: the application has a third route, the static
    files of Flask's constructor, and a request for one of them is
    dispatched to a view that is neither [index] nor [predict]. *)
Lemma app_routes_counterexample :
  map rule (url_map (app no_model_env [])) =
    ["/static/<path:filename>"; "/"; "/predict"]%string /\
  match_request (app no_model_env []) (get_static "style.css")
    = Some (static_view no_model_env) /\
  calls (handle (app no_model_env []) (get_static "style.css")
                (fresh no_model_env))
    = [send_static_file_call "style.css"].
Proof. repeat split; reflexivity. Qed.

(** C9, amended.  The application has exactly three routes: the two the
    module registers, [/] answered by [index] (GET, to which Flask adds HEAD
    and OPTIONS) and [/predict] answered by [predict] (POST, with OPTIONS
    added), and the static rule of Flask's constructor.  A request is
    dispatched to [index] exactly when it is a GET or HEAD of [/], to
    [predict] exactly when it is a POST of [/predict], to the static view
    when it is a GET or HEAD under [/static/], and to no view otherwise. *)
Theorem app_routes (E : Env) :
  url_map (app E []) = [static_rule; index_rule; predict_rule] /\
  view_functions (app E []) =
    [("static", static_view E); ("index", index E); ("predict", predict E)] /\
  (forall builtin,
     registered (length (url_map (@Flask E builtin))) (app E builtin)
     = [index_rule; predict_rule]) /\
  (forall req,
     match_request (app E []) req =
       if get_or_head req && static_path (path req)
       then Some (static_view E)
       else if get_or_head req && String.eqb "/" (path req)
       then Some (index E)
       else if String.eqb (method req) "POST"
               && String.eqb "/predict" (path req)
       then Some (predict E)
       else None) /\
  (forall req, static_path (path req) = true ->
               String.eqb "/" (path req) = false /\
               String.eqb "/predict" (path req) = false).
Proof.
  split; [apply (app_url_map E []) |].
  split; [reflexivity |].
  split.
  - intros builtin. unfold registered.
    rewrite Flask_url_map, app_url_map.
    change [static_rule; index_rule; predict_rule]
      with ([static_rule] ++ [index_rule; predict_rule]).
    rewrite app_assoc, skipn_app, skipn_all, Nat.sub_diag. reflexivity.
  - split; [apply match_request_app |].
    intros req Hs. unfold static_path in Hs.
    apply andb_prop in Hs. destruct Hs as [Hs _].
    split.
    + destruct (String.eqb_spec "/" (path req)) as [Heq|]; [| reflexivity].
      rewrite <- Heq in Hs. discriminate Hs.
    + destruct (String.eqb_spec "/predict" (path req)) as [Heq|];
        [| reflexivity].
      rewrite <- Heq in Hs. discriminate Hs.
Qed.

(** ** The module variables *)

Lemma index_frame (E : Env) (req : request) (w : world E) :
  extends w (snd (index E req w)) [render_template_string_call].
Proof.
  unfold index, bind, extern, ret, extends.
  destruct (render_template_string E HTML_TEMPLATE req); cbn; auto.
Qed.

Lemma static_frame (E : Env) (req : request) (w : world E) :
  extends w (snd (static_view E req w))
    [send_static_file_call (static_filename (path req))].
Proof. unfold static_view, extern, extends. cbn. auto. Qed.

Lemma predict_frame (E : Env) (req : request) (w : world E) :
  exists tr rest,
    extends w (snd (predict E req w)) tr /\
    inference_steps (input_shape w) = tr ++ rest.
Proof.
  pose proof (predict_run E req w) as H.
  assert (Hnil : forall r, predict E req w = (r, w) ->
            exists tr rest, extends w (snd (predict E req w)) tr /\
                            inference_steps (input_shape w) = tr ++ rest).
  { intros r Hr. exists [], (inference_steps (input_shape w)).
    rewrite Hr. split; [apply extends_refl | reflexivity]. }
  destruct (model w) as [m|]; [| destruct H as [msg H]; eauto].
  destruct (files_get "file" (files req)) as [file|];
    [| destruct H as [msg H]; eauto].
  destruct (String.eqb (filename file) EmptyString);
    [destruct H as [msg H]; eauto |].
  destruct (compute_score_run E m file w) as (tr & rest & Hext & Hsteps & _).
  exists (file_read_call :: tr), rest. split; [| exact Hsteps].
  destruct (compute_score E m file w) as [[score|e] w1]; rewrite H;
    exact Hext.
Qed.


Lemma same_model_refl {E : Env} (w : world E) : same_model w w.
Proof.
  repeat split. exists []. now rewrite app_nil_r.
Qed.

Lemma same_model_trans {E : Env} (w1 w2 w3 : world E) :
  same_model w1 w2 -> same_model w2 w3 -> same_model w1 w3.
Proof.
  intros (Hm & Hs & tr & Hc & Hn) (Hm' & Hs' & tr' & Hc' & Hn').
  repeat split; try congruence.
  exists (tr ++ tr'). rewrite Hc', Hc, <- app_assoc, count_app. split; [reflexivity | lia].
Qed.

Lemma index_same_model (E : Env) (req : request) (w : world E) :
  same_model w (snd (index E req w)).
Proof.
  destruct (index_frame E req w) as (Hm & Hs & Hc).
  repeat split; try assumption. eexists; split; [exact Hc | reflexivity].
Qed.

Lemma static_same_model (E : Env) (req : request) (w : world E) :
  same_model w (snd (static_view E req w)).
Proof.
  destruct (static_frame E req w) as (Hm & Hs & Hc).
  repeat split; try assumption. eexists; split; [exact Hc | reflexivity].
Qed.

Lemma predict_same_model (E : Env) (req : request) (w : world E) :
  same_model w (snd (predict E req w)).
Proof.
  destruct (predict_frame E req w) as (tr & rest & (Hm & Hs & Hc) & Hsteps).
  repeat split; try assumption. exists tr; split; [exact Hc |].
  assert (H0 : count is_load_model (inference_steps (input_shape w)) = 0)
    by reflexivity.
  rewrite Hsteps, count_app in H0. lia.
Qed.

Lemma handle_same_model (E : Env) (builtin : list url_rule) (req : request)
    (w : world E) :
  same_model w (handle (app E builtin) req w).
Proof.
  unfold handle, match_request. rewrite app_view_functions.
  destruct (find (rule_matches req) (url_map (app E builtin))) as [r|];
    [| apply same_model_refl].
  destruct (provide_automatic_options r && String.eqb (method req) "OPTIONS");
    [apply same_model_refl |].
  cbn [view_get].
  destruct (String.eqb (endpoint r) "static"); [apply static_same_model |].
  destruct (String.eqb (endpoint r) "index"); [apply index_same_model |].
  destruct (String.eqb (endpoint r) "predict");
    [apply predict_same_model | apply same_model_refl].
Qed.

(** C8.  [model] and [input_shape] are assigned by the start-up only: a
    call of [index] or of [predict], and so any sequence of requests served
    by the application, leaves both as they were and loads no model. *)
Theorem requests_keep_model (E : Env) (builtin : list url_rule)
    (reqs : list request) (req : request) (w : world E) :
  let w' := serve (app E builtin) reqs w in
  (model w' = model w /\ input_shape w' = input_shape w /\
   count is_load_model (calls_since w w') = 0) /\
  (model (snd (index E req w)) = model w /\
   input_shape (snd (index E req w)) = input_shape w) /\
  (model (snd (predict E req w)) = model w /\
   input_shape (snd (predict E req w)) = input_shape w).
Proof.
  split; [| split].
  - assert (H : same_model w (serve (app E builtin) reqs w)).
    { unfold serve. revert w.
      induction reqs as [|r reqs IH]; intros w; cbn [fold_left].
      - apply same_model_refl.
      - eapply same_model_trans; [apply handle_same_model | apply IH]. }
    destruct H as (Hm & Hs & tr & Hc & Hn).
    repeat split; try assumption.
    now rewrite (calls_since_app _ _ _ Hc).
  - destruct (index_same_model E req w) as (Hm & Hs & _). now split.
  - destruct (predict_same_model E req w) as (Hm & Hs & _). now split.
Qed.

(** ** Binary64 subtraction from one

    [1.0 - score] is computed by [SFsub]: the mantissas are aligned, the
    difference is rounded to 53 bits, to nearest, ties to even.  The lemmas
    below follow that computation for a [score] of [0, 1]. *)

Section Binary64.
Local Open Scope Z_scope.

(** The number of binary digits of a mantissa. *)
Lemma digits2_pos_bounds (p : positive) :
  2 ^ (Z.pos (digits2_pos p) - 1) <= Z.pos p < 2 ^ Z.pos (digits2_pos p).
Proof.
  induction p as [p IH|p IH|]; cbn [digits2_pos].
  - rewrite Pos2Z.inj_succ.
    replace (Z.succ (Z.pos (digits2_pos p)) - 1)
      with (Z.succ (Z.pos (digits2_pos p) - 1)) by lia.
    rewrite !Z.pow_succ_r by lia. lia.
  - rewrite Pos2Z.inj_succ.
    replace (Z.succ (Z.pos (digits2_pos p)) - 1)
      with (Z.succ (Z.pos (digits2_pos p) - 1)) by lia.
    rewrite !Z.pow_succ_r by lia. lia.
  - cbn. lia.
Qed.

Lemma digits2_pos_unique (p : positive) (n : Z) :
  2 ^ (n - 1) <= Z.pos p < 2 ^ n -> Z.pos (digits2_pos p) = n.
Proof.
  intros [Hlo Hhi]. pose proof (digits2_pos_bounds p) as [Hlo' Hhi'].
  assert (0 < n).
  { destruct (Z.ltb_spec 0 n) as [|Hn]; [assumption |].
    assert (2 ^ n <= 2 ^ 0) by (destruct (Z.eq_dec n 0) as [->|]; [lia|]; rewrite Z.pow_neg_r by lia; cbn; lia).
    cbn in *. lia. }
  assert (Z.pos (digits2_pos p) - 1 < n).
  { apply (Z.pow_lt_mono_r_iff 2); lia. }
  assert (n - 1 < Z.pos (digits2_pos p)).
  { apply (Z.pow_lt_mono_r_iff 2); lia. }
  lia.
Qed.

Lemma iter_xO_mul (p k : positive) :
  Z.pos (Pos.iter xO p k) = Z.pos p * 2 ^ Z.pos k.
Proof.
  induction k as [|k IH] using Pos.peano_ind.
  - cbn. lia.
  - rewrite Pos.iter_succ, Pos2Z.inj_succ, Z.pow_succ_r by lia.
    change (Z.pos (Pos.iter xO p k)~0) with (2 * Z.pos (Pos.iter xO p k)).
    rewrite IH. lia.
Qed.

Lemma shr_1_m (r : shr_record) :
  0 <= shr_m r -> shr_m (shr_1 r) = shr_m r / 2.
Proof.
  destruct r as [m r s]. cbn [shr_m]. intros Hm.
  rewrite <- Z.div2_div.
  destruct m as [|[p|p|]|p]; try reflexivity. lia.
Qed.

Lemma iter_shr_1_m (k : positive) : forall r : shr_record,
  0 <= shr_m r ->
  shr_m (iter_pos shr_1 k r) = shr_m r / 2 ^ Z.pos k.
Proof.
  assert (Hnn : forall a b, 0 <= a -> 0 < b -> 0 <= a / b)
    by (intros; apply Z.div_pos; lia).
  induction k as [k IH|k IH|]; intros r Hr; cbn [iter_pos].
  - rewrite IH, IH, shr_1_m by
      (rewrite ?IH, ?shr_1_m by (rewrite ?shr_1_m; auto; apply Hnn; lia);
       repeat apply Hnn; lia).
    rewrite !Z.div_div by lia.
    replace (Z.pos k~1) with (1 + Z.pos k + Z.pos k) by lia.
    rewrite !Z.pow_add_r by lia. rewrite ?Z.pow_1_r. f_equal; ring.
  - rewrite IH, IH by (rewrite ?IH by assumption; auto; apply Hnn; lia).
    rewrite !Z.div_div by lia.
    replace (Z.pos k~0) with (Z.pos k + Z.pos k) by lia.
    rewrite !Z.pow_add_r by lia. rewrite ?Z.pow_1_r. f_equal; ring.
  - rewrite shr_1_m by assumption. reflexivity.
Qed.

Lemma fexp_0 : fexp prec emax 0 = -53.
Proof. reflexivity. Qed.

Lemma binary_round_shift (n : positive) (e : Z) :
  e <= -54 ->
  2 ^ (- e - 1) <= Z.pos n < 2 ^ (- e) ->
  exists m1 e1,
    binary_round prec emax false n e = S754_finite false m1 e1 /\
    ((e1 = -53 /\ 2 ^ 52 <= Z.pos m1 < 2 ^ 53) \/
     (e1 = -52 /\ m1 = two52)).
Proof.
  intros He Hn.
  assert (Hd : Z.pos (digits2_pos n) = - e)
    by (apply digits2_pos_unique; exact Hn).
  unfold binary_round. rewrite Hd.
  replace (- e + e) with 0 by lia. rewrite fexp_0.
  unfold shl_align.
  destruct (-53 - e) as [|k|k] eqn:Hk; try lia.
  unfold binary_round_aux, shr_fexp. cbn [Zdigits2]. rewrite Hd.
  replace (- e + e) with 0 by lia. rewrite fexp_0. rewrite Hk.
  cbn [shr_record_of_loc shr].
  set (mrs := iter_pos shr_1 k _).
  assert (Hq : shr_m mrs = Z.pos n / 2 ^ Z.pos k)
    by (apply iter_shr_1_m; cbn; lia).
  assert (Hqb : 2 ^ 52 <= shr_m mrs < 2 ^ 53).
  { rewrite Hq.
    replace (- e - 1) with (Z.pos k + 52) in Hn by lia.
    replace (- e) with (Z.pos k + 53) in Hn by lia.
    rewrite !Z.pow_add_r in Hn by lia.
    split.
    - apply Z.div_le_lower_bound; lia.
    - apply Z.div_lt_upper_bound; lia. }
  set (m1 := round_nearest_even (shr_m mrs) (loc_of_shr_record mrs)).
  assert (Hm1 : m1 = shr_m mrs \/ m1 = shr_m mrs + 1).
  { unfold m1, round_nearest_even.
    destruct (loc_of_shr_record mrs) as [|[]];
      try destruct (Z.even _); auto. }
  replace (e + Z.pos k) with (-53) by lia.
  change (2 ^ 52) with 4503599627370496 in *.
  change (2 ^ 53) with 9007199254740992 in *.
  destruct (Z.eq_dec m1 9007199254740992) as [Heq | Hne].
  - rewrite Heq. exists two52, (-52). split; [reflexivity |].
    right. split; reflexivity.
  - destruct m1 as [|p1|p1] eqn:Hp1; try lia.
    assert (Hd1 : Z.pos (digits2_pos p1) = 53)
      by (apply digits2_pos_unique;
          change (2 ^ (53 - 1)) with 4503599627370496;
          change (2 ^ 53) with 9007199254740992; lia).
    cbn [Zdigits2]. rewrite Hd1.
    change (fexp prec emax (53 + -53) - -53) with 0.
    cbn [shr shr_m]. change (-53 <=? emax - prec) with true. cbn iota.
    exists p1, (-53). split; [reflexivity |]. left. split; [reflexivity | lia].
Qed.

Lemma binary_round_exact (n : positive) :
  Z.pos n < 2 ^ 52 ->
  exists m1 e1,
    binary_round prec emax false n (-53) = S754_finite false m1 e1 /\
    e1 < -53.
Proof.
  intros Hn.
  pose proof (digits2_pos_bounds n) as Hb.
  assert (Hd : Z.pos (digits2_pos n) <= 52).
  { destruct (Z.le_gt_cases (Z.pos (digits2_pos n)) 52) as [|Hgt];
      [assumption |].
    assert (2 ^ 52 <= 2 ^ (Z.pos (digits2_pos n) - 1))
      by (apply Z.pow_le_mono_r; lia).
    lia. }
  unfold binary_round.
  set (d := Z.pos (digits2_pos n)) in *.
  assert (Hf : fexp prec emax (d + -53) = d - 106).
  { unfold fexp. change (SpecFloat.emin prec emax) with (-1074).
    change prec with 53. lia. }
  rewrite Hf. unfold shl_align.
  destruct (d - 106 - -53) as [|s|s] eqn:Hs; try lia.
  set (mz := Pos.iter xO n s).
  assert (Hmz : Z.pos (digits2_pos mz) = 53).
  { apply digits2_pos_unique. unfold mz. rewrite iter_xO_mul.
    replace 53 with (d + Z.pos s) at 2 by lia.
    replace (53 - 1) with (d - 1 + Z.pos s) by lia.
    rewrite !Z.pow_add_r by lia. nia. }
  unfold binary_round_aux, shr_fexp. cbn [Zdigits2]. rewrite Hmz.
  assert (Hf' : fexp prec emax (53 + (d - 106)) - (d - 106) = 0).
  { unfold fexp. change (SpecFloat.emin prec emax) with (-1074).
    change prec with 53. lia. }
  rewrite Hf'. cbn [shr_record_of_loc shr shr_m loc_of_shr_record
                      round_nearest_even Zdigits2].
  rewrite Hmz, Hf'. cbn [shr shr_m].
  assert (Hle : (d - 106 <=? emax - prec) = true)
    by (apply Z.leb_le; change (emax - prec) with 971; lia).
  rewrite Hle.
  exists mz, (d - 106). split; [reflexivity | lia].
Qed.

Lemma Prim2SF_consts :
  Prim2SF 0 = SF_zero /\ Prim2SF 0.5 = SF_half /\ Prim2SF 1 = SF_one.
Proof. repeat split; reflexivity. Qed.

Lemma bounded_digits (m : positive) (e : Z) :
  bounded prec emax m e = true ->
  Z.pos (digits2_pos m) <= 53 /\ (-1074 < e -> Z.pos (digits2_pos m) = 53).
Proof.
  unfold bounded, canonical_mantissa, fexp.
  change (SpecFloat.emin prec emax) with (-1074). change prec with 53.
  intros H. apply andb_prop in H. destruct H as [H _].
  apply Z.eqb_eq in H. lia.
Qed.

Lemma sub_one_small (m : positive) (e : Z) :
  bounded prec emax m e = true ->
  e < -53 ->
  exists m1 e1,
    SF64sub SF_one (S754_finite false m e) = S754_finite false m1 e1 /\
    ((e1 = -53 /\ 2 ^ 52 <= Z.pos m1 < 2 ^ 53) \/
     (e1 = -52 /\ m1 = two52)).
Proof.
  intros Hb He.
  destruct (bounded_digits m e Hb) as [Hd _].
  pose proof (digits2_pos_bounds m) as [_ Hm].
  assert (Hm53 : Z.pos m < 2 ^ 53).
  { eapply Z.lt_le_trans; [exact Hm | apply Z.pow_le_mono_r; lia]. }
  unfold SF64sub, SF_one, SFsub. cbn [cond_Zopp].
  rewrite Z.min_r by lia.
  unfold shl_align at 2. rewrite Z.sub_diag. cbn [fst].
  unfold shl_align. destruct (e - -52) as [|d|d] eqn:Hd52; try lia.
  cbn [fst]. rewrite iter_xO_mul.
  assert (Hp : Z.pos two52 * 2 ^ Z.pos d = 2 * 2 ^ (- e - 1)).
  { change (Z.pos two52) with (2 ^ 52). rewrite <- Z.pow_add_r by lia.
    rewrite <- Z.pow_succ_r by lia. f_equal. lia. }
  rewrite Hp.
  assert (H53 : 2 ^ 53 <= 2 ^ (- e - 1)) by (apply Z.pow_le_mono_r; lia).
  destruct (2 * 2 ^ (- e - 1) - Z.pos m) as [|n|n] eqn:Hn; try lia.
  cbn [binary_normalize].
  apply binary_round_shift; [lia |].
  replace (2 ^ (- e)) with (2 * 2 ^ (- e - 1))
    by (rewrite <- Z.pow_succ_r by lia; f_equal; lia).
  lia.
Qed.

Lemma sub_one_large (m : positive) :
  2 ^ 52 < Z.pos m < 2 ^ 53 ->
  exists m1 e1,
    SF64sub SF_one (S754_finite false m (-53)) = S754_finite false m1 e1 /\
    e1 < -53.
Proof.
  intros Hm.
  unfold SF64sub, SF_one, SFsub. cbn [cond_Zopp].
  change (Z.min (-52) (-53)) with (-53).
  change (fst (shl_align two52 (-52) (-53))) with (xO two52).
  change (fst (shl_align m (-53) (-53))) with m.
  change (Z.pos (xO two52)) with (2 ^ 53).
  destruct (2 ^ 53 - Z.pos m) as [|n|n] eqn:Hn; try lia.
  cbn [binary_normalize]. apply binary_round_exact. lia.
Qed.

Lemma SFltb_finite (m1 m2 : positive) (e1 e2 : Z) :
  SFltb (S754_finite false m1 e1) (S754_finite false m2 e2) = true <->
  e1 < e2 \/ (e1 = e2 /\ Z.pos m1 < Z.pos m2).
Proof.
  unfold SFltb, SFcompare.
  change (Pos.compare_cont Eq m1 m2) with (Z.pos m1 ?= Z.pos m2).
  destruct (Z.compare_spec e1 e2);
    [destruct (Z.compare_spec (Z.pos m1) (Z.pos m2)) | |];
    split; intros; try discriminate; try reflexivity; lia.
Qed.

Lemma SFleb_finite (m1 m2 : positive) (e1 e2 : Z) :
  SFleb (S754_finite false m1 e1) (S754_finite false m2 e2) = true <->
  e1 < e2 \/ (e1 = e2 /\ Z.pos m1 <= Z.pos m2).
Proof.
  unfold SFleb, SFcompare.
  change (Pos.compare_cont Eq m1 m2) with (Z.pos m1 ?= Z.pos m2).
  destruct (Z.compare_spec e1 e2);
    [destruct (Z.compare_spec (Z.pos m1) (Z.pos m2)) | |];
    split; intros; try discriminate; try reflexivity; lia.
Qed.

(** [1 - x] for a float [x] of [0, 1]. *)
Lemma SF_one_minus (x : spec_float) :
  valid_binary x = true ->
  SFleb SF_zero x = true ->
  SFleb x SF_one = true ->
  let y := SF64sub SF_one x in
  if SFltb SF_half x then
    SFltb x y = false /\ SFleb SF_half x = true
  else
    (SFltb x y = true \/ y = x) /\
    SFleb SF_half y = true /\ SFleb y SF_one = true.
Proof.
  intros Hv H0 H1 y.
  destruct x as [s|s| |s m e];
    try discriminate; try (destruct s; discriminate).
  - (* zero *)
    destruct s; cbn; auto.
  - (* finite *)
    destruct s; [discriminate |].
    cbn [valid_binary] in Hv.
    destruct (bounded_digits m e Hv) as [Hd Hd53].
    pose proof (digits2_pos_bounds m) as Hm.
    apply SFleb_finite in H1.
    destruct (Z.lt_trichotomy e (-53)) as [He | [He | He]].
    + (* below one half *)
      assert (Hlt : SFltb SF_half (S754_finite false m e) = false).
      { destruct (SFltb _ _) eqn:Hc; [| reflexivity].
        apply SFltb_finite in Hc. lia. }
      rewrite Hlt.
      destruct (sub_one_small m e Hv He) as (m1 & e1 & Hy & Hcases).
      unfold y. rewrite Hy. unfold SF_half, SF_one.
      change (2 ^ 52) with (Z.pos two52) in Hcases.
      split; [left; apply SFltb_finite; lia |].
      split; apply SFleb_finite; destruct Hcases as [[-> ?] | [-> ->]]; lia.
    + (* the exponent of one half *)
      subst e. specialize (Hd53 ltac:(lia)). rewrite Hd53 in Hm.
      change (2 ^ (53 - 1)) with (Z.pos two52) in Hm.
      destruct (SFltb SF_half _) eqn:Hc.
      * apply SFltb_finite in Hc.
        destruct (sub_one_large m) as (m1 & e1 & Hy & He1);
          [change (2 ^ 52) with (Z.pos two52); lia |].
        unfold y. rewrite Hy. split.
        -- destruct (SFltb _ _) eqn:Hc'; [| reflexivity].
           apply SFltb_finite in Hc'. lia.
        -- apply SFleb_finite. lia.
      * assert (m = two52).
        { destruct (Pos.eq_dec m two52) as [|Hne]; [assumption |].
          assert (SFltb SF_half (S754_finite false m (-53)) = true)
            by (apply SFltb_finite; right; split; [reflexivity |];
                assert (Z.pos m <> Z.pos two52) by congruence; lia).
          congruence. }
        subst m. unfold y. cbn. auto.
    + (* one *)
      assert (e = -52) by lia. subst e. specialize (Hd53 ltac:(lia)).
      rewrite Hd53 in Hm. change (2 ^ (53 - 1)) with (Z.pos two52) in Hm.
      assert (m = two52) by lia. subst m. unfold y. cbn. auto.
Qed.

Lemma confidence_bounds (score : float) :
  (0 <=? score)%float = true ->
  (score <=? 1)%float = true ->
  let confidence :=
    if (0.5 <? score)%float then score else (1.0 - score)%float in
  confidence = float_max score (1 - score) /\
  (0.5 <=? confidence)%float = true /\
  (confidence <=? 1)%float = true.
Proof.
  intros H0 H1.
  pose proof (SF_one_minus (Prim2SF score) (Prim2SF_valid score)) as H.
  destruct Prim2SF_consts as (Hz & Hh & Ho).
  rewrite leb_spec, Hz in H0. rewrite leb_spec, Ho in H1.
  specialize (H H0 H1). cbv zeta in H.
  unfold float_max.
  rewrite !ltb_spec, Hh, sub_spec, Ho.
  destruct (SFltb SF_half (Prim2SF score)).
  - destruct H as [Hlt Hle]. rewrite Hlt.
    rewrite !leb_spec, Hh, Ho. auto.
  - destruct H as (Hmax & Hlo & Hhi). cbv zeta.
    rewrite !leb_spec, sub_spec, Hh, Ho. split; [| auto].
    destruct Hmax as [Hlt | Heq]; [now rewrite Hlt |].
    destruct (SFltb _ _); [reflexivity |].
    apply Prim2SF_inj. rewrite sub_spec, Ho. exact Heq.
Qed.

End Binary64.

(** C10.  When the score of an inference lies in [0, 1], the confidence
    of the answer is [max(score, 1 - score)], so it is at least 0.5 and at
    most 1. *)
Theorem confidence_is_max (E : Env) (req : request) (w : world E)
    (m : keras_model E) (file : file_storage) (score : float)
    (w1 : world E) :
  accepted req w m file ->
  compute_score E m file w = (Ok score, w1) ->
  (0 <=? score)%float = true ->
  (score <=? 1)%float = true ->
  exists resp confidence,
    predict E req w = (Ok resp, w1) /\
    body_get "confidence" (resp_body resp) = Some (JNumber confidence) /\
    confidence = float_max score (1 - score) /\
    (0.5 <=? confidence)%float = true /\
    (confidence <=? 1)%float = true.
Proof.
  intros Hacc Hrun H0 H1.
  pose proof (accepted_run E req w m file Hacc) as H. rewrite Hrun in H.
  rewrite format_score_eq in H.
  eexists; eexists. split; [exact H |]. split; [reflexivity |].
  exact (confidence_bounds score H0 H1).
Qed.

Lemma confidence_is_max_witness :
  exists resp confidence,
    predict (working_env 0.25) (upload_request "cat.jpg")
            (loaded (working_env 0.25) tt)
      = (Ok resp,
         snd (compute_score (working_env 0.25) tt (upload "cat.jpg")
                            (loaded (working_env 0.25) tt))) /\
    body_get "confidence" (resp_body resp) = Some (JNumber confidence) /\
    confidence = float_max 0.25 (1 - 0.25) /\
    (0.5 <=? confidence)%float = true /\
    (confidence <=? 1)%float = true.
Proof.
  apply (confidence_is_max (working_env 0.25) (upload_request "cat.jpg")
           (loaded (working_env 0.25) tt) tt (upload "cat.jpg") 0.25%float).
  - split; [reflexivity | split; [reflexivity | discriminate]].
  - reflexivity.
  - reflexivity.
  - reflexivity.
Defined.

(** * Further properties of the module *)

(** ** The markup of the script is the template's *)

Example error_html_in_template :
  includes HTML_TEMPLATE
    ("'<span style=" ++ dq ++ "color: red;" ++ dq
     ++ ">에러: ' + data.error + '</span>'")%string = true.
Proof. vm_compute. reflexivity. Qed.

Example result_html_in_template :
  includes HTML_TEMPLATE
    (result_html "${predColor}" "${data.prediction}"
       "${(data.confidence * 100).toFixed(2)}") = true.
Proof. vm_compute. reflexivity. Qed.

Example server_error_html_in_template :
  includes HTML_TEMPLATE ("'" ++ server_error_html ++ "'")%string = true.
Proof. vm_compute. reflexivity. Qed.

Example loading_html_in_template :
  includes HTML_TEMPLATE ("'" ++ loading_html ++ "'")%string = true.
Proof. vm_compute. reflexivity. Qed.

Example colour_test_in_template :
  includes HTML_TEMPLATE
    "data.prediction.includes('강아지') ? '#2b6cb0' : '#c53030'" = true.
Proof. vm_compute. reflexivity. Qed.

(** ** Start-up, case by case *)

Lemma startup_run (E : Env) (w : world E) :
  startup E w =
    if os_path_exists E model_path then
      match load_model E model_path with
      | Ok m =>
          let log := calls w ++ [os_path_exists_call model_path;
                                 load_model_call model_path] in
          match tuple_item (model_input_shape E m) 1 with
          | Ok d =>
              (Ok tt,
               mk_world (Some m)
                 (match d with
                  | Some _ => tuple_slice (model_input_shape E m) 1 3
                  | None => default_input_shape
                  end) log)
          | Raise e => (Raise e, mk_world (Some m) (input_shape w) log)
          end
      | Raise e =>
          (Raise e,
           mk_world (model w) (input_shape w)
             (calls w ++ [os_path_exists_call model_path;
                          load_model_call model_path]))
      end
    else
      (Ok tt,
       mk_world None default_input_shape
         (calls w ++ [os_path_exists_call model_path])).
Proof.
  unfold startup, bind, extern, set_model, set_input_shape, lift.
  destruct w as [mo sh cs]; cbn [model input_shape calls].
  destruct (os_path_exists E model_path); [| reflexivity].
  destruct (load_model E model_path) as [m|e];
    cbn [model input_shape calls]; rewrite <- app_assoc; cbn [app];
    [| reflexivity].
  destruct (tuple_item (model_input_shape E m) 1) as [d|e]; reflexivity.
Qed.

Lemma tuple_item_1 {A : Type} (t : list A) (x : A) :
  tuple_item t 1 = Ok x -> exists a rest, t = a :: x :: rest.
Proof.
  unfold tuple_item. destruct t as [|a [|b rest]]; cbn; try discriminate.
  intros H. inversion H; subst. eauto.
Qed.

Lemma tuple_item_1_short {A : Type} (t : list A) :
  (exists e, tuple_item t 1 = Raise e) <-> length t < 2.
Proof.
  unfold tuple_item. destruct t as [|a [|b rest]]; cbn; split; intros H;
    try lia; try (eexists; reflexivity).
  destruct H as [e H]. discriminate.
Qed.



(** X2.  The start-up returns exactly when the model file is absent, or
    the loader returns a model whose input shape has at least two entries.
    What it raises otherwise is the loader's exception or an [IndexError],
    and nothing catches it. *)
Theorem startup_returns_iff (E : Env) (w : world E) :
  (fst (startup E w) = Ok tt <->
   os_path_exists E model_path = false \/
   exists m, load_model E model_path = Ok m /\
             2 <= length (model_input_shape E m)) /\
  (forall e, fst (startup E w) = Raise e ->
             load_model E model_path = Raise e \/
             e = IndexError "tuple index out of range").
Proof.
  rewrite startup_run.
  destruct (os_path_exists E model_path).
  - destruct (load_model E model_path) as [m|e0]; cbv zeta.
    + pose proof (tuple_item_1_short (model_input_shape E m)) as Hshort.
      destruct (tuple_item (model_input_shape E m) 1) as [d|e1] eqn:Hitem;
        cbn [fst].
      * split; [| discriminate].
        split; [| reflexivity]. intros _. right. exists m.
        split; [reflexivity |].
        destruct (tuple_item_1 _ _ Hitem) as (a & rest & ->). cbn. lia.
      * split.
        -- split; [discriminate |].
           intros [Habs | (m' & Hm' & Hlen)]; [discriminate |].
           inversion Hm'; subst m'.
           assert (length (model_input_shape E m) < 2)
             by (apply Hshort; eauto).
           lia.
        -- intros e He. right. inversion He; subst e.
           unfold tuple_item in Hitem.
           destruct (nth_error (model_input_shape E m) 1);
             [discriminate | congruence].
    + cbn [fst]. split.
      * split; [discriminate |].
        intros [Habs | (m' & Hm' & _)]; discriminate.
      * intros e He. left. congruence.
  - cbn [fst]. split; [| discriminate].
    split; auto.
Qed.

(** ** The server after its start-up *)

Lemma serve_same_model (E : Env) (builtin : list url_rule)
    (reqs : list request) (w : world E) :
  same_model w (serve (app E builtin) reqs w).
Proof.
  unfold serve. revert w.
  induction reqs as [|r reqs IH]; intros w; cbn [fold_left].
  - apply same_model_refl.
  - eapply same_model_trans; [apply handle_same_model | apply IH].
Qed.

(** X3.  Started without the model file, the server never predicts:
    whatever requests came before, [predict] answers with status 500 and
    calls no library. *)
Theorem no_model_always_500 (E : Env) (builtin : list url_rule)
    (reqs : list request) (req : request) (w : world E) :
  os_path_exists E model_path = false ->
  let w1 := serve (app E builtin) reqs (snd (startup E w)) in
  is_error (fst (predict E req w1)) 500 /\
  snd (predict E req w1) = w1.
Proof.
  intros Habsent w1.
  assert (Hnone : model w1 = None).
  { destruct (serve_same_model E builtin reqs (snd (startup E w)))
      as (Hm & _). fold w1 in Hm. rewrite Hm.
    rewrite startup_run, Habsent. reflexivity. }
  pose proof (predict_run E req w1) as H. rewrite Hnone in H.
  destruct H as [msg H]. rewrite H. split; [now exists msg | reflexivity].
Qed.

Lemma no_model_always_500_witness :
  is_error
    (fst (predict no_model_env (upload_request "cat.jpg")
            (serve (app no_model_env [])
               [get_index; upload_request "dog.jpg"]
               (snd (startup no_model_env (fresh no_model_env)))))) 500 /\
  snd (predict no_model_env (upload_request "cat.jpg")
         (serve (app no_model_env [])
            [get_index; upload_request "dog.jpg"]
            (snd (startup no_model_env (fresh no_model_env)))))
    = serve (app no_model_env [])
        [get_index; upload_request "dog.jpg"]
        (snd (startup no_model_env (fresh no_model_env))).
Proof.
  apply (no_model_always_500 no_model_env []
           [get_index; upload_request "dog.jpg"] (upload_request "cat.jpg")
           (fresh no_model_env)).
  reflexivity.
Defined.



Lemma handle_forward_passes (E : Env) (builtin : list url_rule)
    (req : request) (w : world E) :
  exists tr,
    calls (handle (app E builtin) req w) = calls w ++ tr /\
    count is_model_predict tr <= 1.
Proof.
  assert (Hnil : exists tr, calls w = calls w ++ tr /\
                            count is_model_predict tr <= 1)
    by (exists []; rewrite app_nil_r; cbn; auto).
  unfold handle, match_request. rewrite app_view_functions.
  destruct (find (rule_matches req) (url_map (app E builtin))) as [r|];
    [| exact Hnil].
  destruct (provide_automatic_options r && String.eqb (method req) "OPTIONS");
    [exact Hnil |].
  cbn [view_get].
  destruct (String.eqb (endpoint r) "static").
  { destruct (static_frame E req w) as (_ & _ & Hc).
    eexists; split; [exact Hc | cbn; lia]. }
  destruct (String.eqb (endpoint r) "index").
  - destruct (index_frame E req w) as (_ & _ & Hc).
    eexists; split; [exact Hc | cbn; lia].
  - destruct (String.eqb (endpoint r) "predict"); [| exact Hnil].
    destruct (predict_frame E req w) as (tr & rest & (_ & _ & Hc) & Hsteps).
    exists tr. split; [exact Hc |].
    assert (H1 : count is_model_predict (inference_steps (input_shape w)) = 1)
      by reflexivity.
    rewrite Hsteps, count_app in H1. lia.
Qed.

(** X5.  The model is run at most once per request: after any sequence
    of requests the log holds no more forward passes than requests were
    served. *)
Theorem forward_passes_bounded (E : Env) (builtin : list url_rule)
    (reqs : list request) (w : world E) :
  count is_model_predict (calls_since w (serve (app E builtin) reqs w))
    <= length reqs.
Proof.
  assert (H : exists tr,
            calls (serve (app E builtin) reqs w) = calls w ++ tr /\
            count is_model_predict tr <= length reqs).
  { unfold serve. revert w.
    induction reqs as [|r reqs IH]; intros w; cbn [fold_left length].
    - exists []. rewrite app_nil_r. cbn. auto.
    - destruct (handle_forward_passes E builtin r w) as (tr1 & Hc1 & Hn1).
      destruct (IH (handle (app E builtin) r w)) as (tr2 & Hc2 & Hn2).
      exists (tr1 ++ tr2). rewrite Hc2, Hc1, <- app_assoc, count_app.
      split; [reflexivity | lia]. }
  destruct H as (tr & Hc & Hn). now rewrite (calls_since_app _ _ _ Hc).
Qed.

(** ** The confidence for any score *)

Section Binary64_any.
Local Open Scope Z_scope.

(** Rounding a mantissa of at least 53 bits, away from the subnormals. *)
Lemma binary_round_normal (n : positive) (e : Z) :
  53 <= Z.pos (digits2_pos n) ->
  -1074 <= Z.pos (digits2_pos n) + e - 53 ->
  binary_round prec emax false n e = S754_infinity false \/
  exists m1 e1,
    binary_round prec emax false n e = S754_finite false m1 e1 /\
    Z.pos (digits2_pos n) + e - 53 <= e1.
Proof.
  intros Hd Hmin.
  pose proof (digits2_pos_bounds n) as Hn.
  set (d := Z.pos (digits2_pos n)) in *.
  assert (Hf : forall x, -1074 <= x - 53 -> fexp prec emax x = x - 53).
  { intros x Hx. unfold fexp. change (SpecFloat.emin prec emax) with (-1074).
    change prec with 53. lia. }
  unfold binary_round. fold d. rewrite Hf by lia.
  unfold shl_align.
  assert (Hsh : exists q l,
            shr (shr_record_of_loc (Z.pos n) loc_Exact) e (d - 53) =
              ({| shr_m := q; shr_r := fst l; shr_s := snd l |}, d + e - 53) /\
            2 ^ 52 <= q < 2 ^ 53).
  { destruct (d - 53) as [|k|k] eqn:Hk; try lia.
    - exists (Z.pos n), (false, false). cbn [shr shr_record_of_loc fst snd].
      split; [f_equal; lia |].
      replace d with 53 in Hn by lia. exact Hn.
    - cbn [shr shr_record_of_loc].
      set (mrs := iter_pos shr_1 k _).
      assert (Hq : shr_m mrs = Z.pos n / 2 ^ Z.pos k)
        by (apply iter_shr_1_m; cbn; lia).
      exists (shr_m mrs), (shr_r mrs, shr_s mrs). cbn [fst snd].
      split; [destruct mrs as [qm qr qs]; cbn [shr_m shr_r shr_s]; f_equal; lia |].
      rewrite Hq.
      replace (d - 1) with (Z.pos k + 52) in Hn by lia.
      replace d with (Z.pos k + 53) in Hn by lia.
      rewrite !Z.pow_add_r in Hn by lia.
      split.
      + apply Z.div_le_lower_bound; lia.
      + apply Z.div_lt_upper_bound; lia. }
  destruct Hsh as (q & l & Hsh & Hq).
  destruct (d + e - 53 - e) as [|k|k] eqn:Hk; try lia;
    (replace (d + e - 53 - e) with (d - 53) in Hk by lia);
    unfold binary_round_aux, shr_fexp; cbn [Zdigits2]; fold d;
    rewrite Hf by lia;
    (replace (d + e - 53 - e) with (d - 53) by lia);
    rewrite Hsh.
  all: set (m1 := round_nearest_even (shr_m _) _).
  all: assert (Hm1 : m1 = q \/ m1 = q + 1)
    by (unfold m1, round_nearest_even; cbn [shr_m];
        destruct (loc_of_shr_record _) as [|[]];
        try destruct (Z.even _); auto).
  all: change (2 ^ 52) with 4503599627370496 in *.
  all: change (2 ^ 53) with 9007199254740992 in *.
  all: set (e' := d + e - 53) in *.
  all: destruct (Z.eq_dec m1 9007199254740992) as [Heq | Hne].
  all: try (rewrite Heq;
            change (Zdigits2 9007199254740992) with 54;
            rewrite Hf by lia;
            replace (54 + e' - 53 - e') with 1 by lia;
            cbn [shr shr_record_of_loc iter_pos shr_1 shr_m];
            destruct (e' + 1 <=? emax - prec);
            [right; eexists; eexists; split; [reflexivity | lia]
            | left; reflexivity]).
  all: destruct m1 as [|p1|p1] eqn:Hp1; try lia.
  all: assert (Hd1 : Z.pos (digits2_pos p1) = 53)
      by (apply digits2_pos_unique;
          change (2 ^ (53 - 1)) with 4503599627370496;
          change (2 ^ 53) with 9007199254740992; lia).
  all: cbn [Zdigits2]; rewrite Hd1, Hf by lia.
  all: replace (53 + e' - 53 - e') with 0 by lia.
  all: cbn [shr shr_record_of_loc shr_m].
  all: destruct (e' <=? emax - prec);
    [right; eexists; eexists; split; [reflexivity | lia] | left; reflexivity].
Qed.

(** [1 - x] for a negative finite [x] is at least one. *)
Lemma sub_one_negative (m : positive) (e : Z) :
  SF64sub SF_one (S754_finite true m e) = S754_infinity false \/
  exists m1 e1,
    SF64sub SF_one (S754_finite true m e) = S754_finite false m1 e1 /\
    -52 <= e1.
Proof.
  unfold SF64sub, SF_one, SFsub. cbn [cond_Zopp].
  set (ez := Z.min (-52) e).
  set (a := fst (shl_align two52 (-52) ez)).
  set (b := fst (shl_align m e ez)).
  assert (Ha : Z.pos a = 2 ^ (- ez)).
  { unfold a, shl_align.
    destruct (ez - -52) as [|k|k] eqn:Hk; cbn [fst].
    - replace ez with (-52) by lia. reflexivity.
    - unfold ez in Hk. lia.
    - rewrite iter_xO_mul. change (Z.pos two52) with (2 ^ 52).
      rewrite <- Z.pow_add_r by lia. f_equal. lia. }
  change (Z.pos a - - Z.pos b) with (Z.pos (a + b)).
  cbn [binary_normalize].
  pose proof (digits2_pos_bounds (a + b)) as Hb.
  assert (Hd : - ez < Z.pos (digits2_pos (a + b))).
  { apply (Z.pow_lt_mono_r_iff 2); lia. }
  assert (Hez : ez <= -52) by (unfold ez; lia).
  destruct (binary_round_normal (a + b) ez) as [Hinf | (m1 & e1 & Hr & He1)];
    try lia.
  - now left.
  - right. exists m1, e1. split; [exact Hr | lia].
Qed.

(** The confidence is at least one half whatever the score, unless the
    score is not a number. *)
Lemma SF_confidence_ge_half (x : spec_float) :
  valid_binary x = true ->
  x <> S754_nan ->
  SFleb SF_half (if SFltb SF_half x then x else SF64sub SF_one x) = true.
Proof.
  intros Hv Hnan.
  destruct x as [s|s| |s m e]; try contradiction.
  - destruct s; reflexivity.
  - destruct s; reflexivity.
  - destruct s.
    + change (SFltb SF_half (S754_finite true m e)) with false. cbv iota.
      destruct (sub_one_negative m e) as [-> | (m1 & e1 & -> & He1)];
        [reflexivity |].
      apply SFleb_finite. lia.
    + destruct (SFltb SF_half (S754_finite false m e)) eqn:Hlt.
      * apply SFltb_finite in Hlt. apply SFleb_finite. lia.
      * assert (H1 : SFleb (S754_finite false m e) SF_one = true).
        { apply SFleb_finite.
          destruct (Z.lt_ge_cases e (-52)) as [|Hge]; [now left |].
          assert (SFltb SF_half (S754_finite false m e) = true)
            by (apply SFltb_finite; lia).
          congruence. }
        pose proof (SF_one_minus (S754_finite false m e) Hv eq_refl H1) as H.
        cbv zeta in H. rewrite Hlt in H. tauto.
Qed.

Lemma confidence_ge_half (score : float) :
  let confidence :=
    if (0.5 <? score)%float then score else (1.0 - score)%float in
  (is_nan score = false -> (0.5 <=? confidence)%float = true) /\
  (is_nan score = true ->
   (0.5 <? score)%float = false /\ is_nan confidence = true).
Proof.
  cbv zeta. destruct Prim2SF_consts as (Hz & Hh & Ho).
  unfold is_nan. rewrite !eqb_spec.
  split.
  - intros Hn.
    assert (Hx : Prim2SF score <> S754_nan).
    { intros Heq. rewrite Heq in Hn. discriminate. }
    pose proof (SF_confidence_ge_half (Prim2SF score) (Prim2SF_valid score) Hx)
      as H.
    rewrite ltb_spec, Hh.
    destruct (SFltb SF_half (Prim2SF score)).
    + now rewrite leb_spec, Hh.
    + now rewrite leb_spec, sub_spec, Hh, Ho.
  - intros Hn.
    assert (Hx : Prim2SF score = S754_nan).
    { destruct (Prim2SF score) as [s|s| |s m e] eqn:Hs; try reflexivity.
      - destruct s; discriminate.
      - destruct s; discriminate.
      - exfalso. unfold SFeqb, SFcompare in Hn.
        rewrite Z.compare_refl, Pos.compare_cont_refl in Hn.
        destruct s; discriminate. }
    rewrite ltb_spec, Hx. split; [reflexivity |].
    change (SFltb (Prim2SF 0.5) S754_nan) with false. cbv iota.
    rewrite sub_spec, Hx. reflexivity.
Qed.

End Binary64_any.

(** X6.  Whatever score the model returns, the confidence of the answer
    is at least 0.5, unless the score is not a number: then the label is the
    cat one and the confidence is not a number either. *)
Theorem confidence_at_least_half (E : Env) (req : request) (w : world E)
    (m : keras_model E) (file : file_storage) (score : float)
    (w1 : world E) :
  accepted req w m file ->
  compute_score E m file w = (Ok score, w1) ->
  exists label confidence,
    predict E req w =
      (Ok (mk_response (prediction_body label confidence) 200), w1) /\
    (is_nan score = false -> (0.5 <=? confidence)%float = true) /\
    (is_nan score = true -> label = cat /\ is_nan confidence = true).
Proof.
  intros Hacc Hrun.
  pose proof (accepted_run E req w m file Hacc) as H. rewrite Hrun in H.
  rewrite format_score_eq in H.
  eexists; eexists. split; [exact H |].
  destruct (confidence_ge_half score) as [Hge Hnan].
  split; [exact Hge |].
  intros Hn. destruct (Hnan Hn) as [Hlt Hc]. rewrite Hlt. split; [reflexivity |].
  rewrite Hlt in Hc. exact Hc.
Qed.

Lemma confidence_at_least_half_witness :
  exists label confidence,
    predict (working_env (-3)) (upload_request "cat.jpg")
            (loaded (working_env (-3)) tt) =
      (Ok (mk_response (prediction_body label confidence) 200),
       snd (compute_score (working_env (-3)) tt (upload "cat.jpg")
                          (loaded (working_env (-3)) tt))) /\
    (is_nan (-3) = false -> (0.5 <=? confidence)%float = true) /\
    (is_nan (-3) = true -> label = cat /\ is_nan confidence = true).
Proof.
  apply (confidence_at_least_half (working_env (-3))
           (upload_request "cat.jpg") (loaded (working_env (-3)) tt)
           tt (upload "cat.jpg") (-3)%float).
  - split; [reflexivity | split; [reflexivity | discriminate]].
  - reflexivity.
Defined.

(** ** The page and the server together *)

Example on_response_dog :
  on_response plain_browser
    [("prediction", JString dog); ("confidence", JNumber 0.75)]
  = result_html "#2b6cb0" dog "?".
Proof. reflexivity. Qed.

Example on_response_cat :
  on_response plain_browser
    [("prediction", JString cat); ("confidence", JNumber 0.75)]
  = result_html "#c53030" cat "?".
Proof. reflexivity. Qed.

Example on_response_empty_object :
  on_response plain_browser [] = server_error_html.
Proof. reflexivity. Qed.

Example receive_nan_answer :
  on_submit plain_browser (receive (match resp_body (format_score nan) with
                                    | Json d => d
                                    | Html _ => []
                                    end))
  = server_error_html.
Proof. reflexivity. Qed.

(** X7.  What the page submits reaches the inference: its request is
    dispatched to [predict] and, when the model is loaded and the chosen
    file has a name, passes the guards, so that the file is read. *)
Theorem page_submission_reaches_predict (E : Env) (f : file_storage)
    (w : world E) (m : keras_model E) :
  model w = Some m ->
  filename f <> EmptyString ->
  match_request (app E []) (page_request f) = Some (predict E) /\
  accepted (page_request f) w m f /\
  exists tr,
    calls_since w (handle (app E []) (page_request f) w)
      = file_read_call :: tr.
Proof.
  intros Hm Hname.
  assert (Hroute : match_request (app E []) (page_request f)
                   = Some (predict E))
    by (rewrite match_request_app; reflexivity).
  assert (Hacc : accepted (page_request f) w m f)
    by (split; [exact Hm | split; [reflexivity | exact Hname]]).
  split; [exact Hroute |]. split; [exact Hacc |].
  unfold handle. rewrite Hroute.
  pose proof (accepted_run E (page_request f) w m f Hacc) as Hr.
  destruct (compute_score_run E m f w) as (tr & rest & Hext & _).
  exists tr. apply extends_calls_since.
  destruct (compute_score E m f w) as [[score|e] w1]; rewrite Hr; exact Hext.
Qed.

Lemma page_submission_reaches_predict_witness :
  match_request (app (working_env 0.5) []) (page_request (upload "cat.jpg"))
    = Some (predict (working_env 0.5)) /\
  accepted (page_request (upload "cat.jpg")) (loaded (working_env 0.5) tt)
           tt (upload "cat.jpg") /\
  exists tr,
    calls_since (loaded (working_env 0.5) tt)
      (handle (app (working_env 0.5) []) (page_request (upload "cat.jpg"))
              (loaded (working_env 0.5) tt))
      = file_read_call :: tr.
Proof.
  apply (page_submission_reaches_predict (working_env 0.5)
           (upload "cat.jpg") (loaded (working_env 0.5) tt) tt).
  - reflexivity.
  - discriminate.
Defined.

(** X8.  The page and the server agree on the labels.  For the answer
    to a successful inference, as the browser receives it: when the
    confidence is finite, the script shows the server's label, in #2b6cb0
    exactly when the score is above 0.5 and in #c53030 otherwise; when the
    confidence is NaN or infinite, the body is not JSON and the script shows
    its server-error line. *)
Theorem page_colours_label (E : Env) (B : Browser) (req : request)
    (w : world E) (m : keras_model E) (file : file_storage) (score : float)
    (w1 : world E) :
  accepted req w m file ->
  compute_score E m file w = (Ok score, w1) ->
  exists data confidence,
    predict E req w = (Ok (mk_response (Json data) 200), w1) /\
    dict_get "confidence" data = Some (JNumber confidence) /\
    on_submit B (receive data) =
      if is_finite confidence then
        result_html
          (if (0.5 <? score)%float then "#2b6cb0" else "#c53030")
          (if (0.5 <? score)%float then dog else cat)
          (toFixed2 B (confidence * 100)%float)
      else server_error_html.
Proof.
  intros Hacc Hrun.
  pose proof (accepted_run E req w m file Hacc) as H. rewrite Hrun in H.
  rewrite format_score_eq in H.
  eexists; eexists. split; [exact H |]. split; [reflexivity |].
  unfold receive, prediction_body.
  cbn [forallb snd json_finite andb].
  destruct (is_finite _); [| reflexivity].
  rewrite andb_true_r. cbn [on_submit].
  destruct (0.5 <? score)%float; reflexivity.
Qed.

Lemma page_colours_label_witness :
  exists data confidence,
    predict (working_env 0.75) (upload_request "dog.jpg")
            (loaded (working_env 0.75) tt)
      = (Ok (mk_response (Json data) 200),
         snd (compute_score (working_env 0.75) tt (upload "dog.jpg")
                            (loaded (working_env 0.75) tt))) /\
    dict_get "confidence" data = Some (JNumber confidence) /\
    on_submit plain_browser (receive data) =
      if is_finite confidence then
        result_html "#2b6cb0" dog
          (toFixed2 plain_browser (confidence * 100)%float)
      else server_error_html.
Proof.
  apply (page_colours_label (working_env 0.75) plain_browser
           (upload_request "dog.jpg") (loaded (working_env 0.75) tt)
           tt (upload "dog.jpg") 0.75%float).
  - split; [reflexivity | split; [reflexivity | discriminate]].
  - reflexivity.
Defined.

Lemma on_submit_error (B : Browser) (msg : string) :
  on_submit B (Parsed [("error", JString msg)]) =
    if String.eqb msg EmptyString then server_error_html else error_html msg.
Proof.
  unfold on_submit, on_response.
  change (dict_get "error" [("error", JString msg)])
    with (Some (JString msg)).
  change (dict_get "prediction" [("error", JString msg)]) with (@None json).
  cbn [js_truthy js_to_string].
  destruct (String.eqb msg EmptyString); reflexivity.
Qed.

(** X9.  Given an error answer of [predict], the script shows the
    answer's message on its error line, except when the message is empty
    (an exception whose [str] is empty): then it shows the generic
    server-error line.  The answers of the three guards are always shown
    with their message. *)
Theorem page_shows_error (E : Env) (B : Browser) (req : request)
    (w : world E) (resp : response) (w' : world E) (data : dict) :
  predict E req w = (Ok resp, w') ->
  resp_body resp = Json data ->
  has_key "error" data = true ->
  exists msg,
    data = [("error", JString msg)] /\
    on_submit B (Parsed data) =
      (if String.eqb msg EmptyString then server_error_html
       else error_html msg) /\
    (rejected req w -> on_submit B (Parsed data) = error_html msg).
Proof.
  intros Hp Hbody Hkey.
  unfold predict, bind, get_model, ret, try_except_Exception in Hp.
  destruct (model w) as [m|] eqn:Hm.
  2:{ inversion Hp; subst resp. inversion Hbody; subst data.
      eexists. split; [reflexivity |]. rewrite on_submit_error.
      split; [reflexivity | intros _; reflexivity]. }
  destruct (files_get "file" (files req)) as [file|] eqn:Hf.
  2:{ inversion Hp; subst resp. inversion Hbody; subst data.
      eexists. split; [reflexivity |]. rewrite on_submit_error.
      split; [reflexivity | intros _; reflexivity]. }
  destruct (String.eqb_spec (filename file) EmptyString) as [Hname|Hname].
  1:{ inversion Hp; subst resp. inversion Hbody; subst data.
      eexists. split; [reflexivity |]. rewrite on_submit_error.
      split; [reflexivity | intros _; reflexivity]. }
  assert (Hnot : ~ rejected req w).
  { apply (accepted_not_rejected req w m file).
    split; [exact Hm | split; [exact Hf | exact Hname]]. }
  destruct (compute_score E m file w) as [[score|e] w1].
  - inversion Hp; subst resp. rewrite format_score_eq in Hbody.
    inversion Hbody; subst data. discriminate Hkey.
  - destruct (is_Exception e); inversion Hp; subst resp.
    inversion Hbody; subst data.
    exists (str e). split; [reflexivity |]. rewrite on_submit_error.
    split; [reflexivity | intros Hrej; contradiction].
Qed.

Lemma page_shows_error_witness :
  exists msg,
    [("error", JString EmptyString)] = [("error", JString msg)] /\
    on_submit plain_browser (Parsed [("error", JString EmptyString)]) =
      (if String.eqb msg EmptyString then server_error_html
       else error_html msg) /\
    (rejected (upload_request "cat.jpg") (loaded failed_assert_env tt) ->
     on_submit plain_browser (Parsed [("error", JString EmptyString)])
       = error_html msg).
Proof.
  apply (page_shows_error failed_assert_env plain_browser
           (upload_request "cat.jpg") (loaded failed_assert_env tt)
           (mk_response (error_body EmptyString) 500)
           (snd (predict failed_assert_env (upload_request "cat.jpg")
                         (loaded failed_assert_env tt))));
    reflexivity.
Defined.

(** ** The input shape over the life of the server *)

Lemma resize_in_steps (s size : shape) :
  In (resize_call s) (inference_steps size) -> s = size.
Proof.
  unfold inference_steps. cbn [In].
  intros H.
  repeat (destruct H as [H | H]; [try discriminate H |]);
    try contradiction.
  now inversion H.
Qed.

(** X10.  The shape computed at start-up is the one every later request
    is resized to: whatever requests were served in between, a [resize]
    call made by [predict] is given the [input_shape] the start-up left. *)
Theorem resize_uses_startup_shape (E : Env) (builtin : list url_rule)
    (reqs : list request) (req : request) (w : world E) (s : shape) :
  let w0 := snd (startup E w) in
  let w1 := serve (app E builtin) reqs w0 in
  In (resize_call s) (calls_since w1 (snd (predict E req w1))) ->
  s = input_shape w0.
Proof.
  intros w0 w1 Hin.
  destruct (serve_same_model E builtin reqs w0) as (_ & Hshape & _).
  fold w1 in Hshape. rewrite <- Hshape.
  destruct (predict_frame E req w1) as (tr & rest & Hext & Hsteps).
  rewrite (extends_calls_since _ _ _ Hext) in Hin.
  apply resize_in_steps. rewrite Hsteps. apply in_or_app. now left.
Qed.

Lemma resize_uses_startup_shape_witness :
  default_input_shape =
    input_shape (snd (startup (working_env 0.5) (fresh (working_env 0.5)))).
Proof.
  apply (resize_uses_startup_shape (working_env 0.5) []
           [get_index; upload_request "dog.jpg"] (upload_request "cat.jpg")
           (fresh (working_env 0.5)) default_input_shape).
  cbn. right; right; right; left. reflexivity.
Defined.
